(** * Request-context construction and resource routing of the CloudWatch
      data source backend

    A shallow embedding of [pkg/cloudwatch/cloudwatch.go], of the resource
    adapter [handleResourceReq] and of the route handlers
    [AccountsHandler], [DimensionValuesHandler] and [ExternalIdHandler].

    Go's multiple results [(v, err)] are pairs [(v, option error)]: the
    zero value of [v] is written out where the source returns it next to a
    non-nil error.  Calls that leave the process (instance manager,
    configuration provider, AWS APIs, the HTTP response writer) are
    recorded, in order, in a trace of events; what such a call answers is
    a function of the trace so far, so an answer may depend on everything
    that happened before it. *)

From Stdlib Require Import String Ascii List ZArith Bool Lia.
From stdpp Require Import base option gmap strings.
Import ListNotations.
Open Scope string_scope.
Open Scope list_scope.

(** ** Go errors *)

(** A package-level sentinel made by [errors.New] is one allocated value:
    it is identified by the name of the variable that holds it.  An error
    made by [fmt.Errorf] is a fresh value carrying its formatted text and,
    when the format has a %w verb ([fmt_Errorf_w]), the error it wraps. *)
Inductive error : Type :=
| errors_New (var : string) (text : string)
| fmt_Errorf (text : string)
| fmt_Errorf_w (text : string) (wrapped : error).

(** [err.Error()] *)
Definition Error (err : error) : string :=
  match err with
  | errors_New _ text => text
  | fmt_Errorf text => text
  | fmt_Errorf_w text _ => text
  end.

(** [err == target] on interface values holding pointers: the same
    allocation.  Only sentinels are ever used as targets. *)
Definition same_error (err target : error) : bool :=
  match err, target with
  | errors_New v _, errors_New v' _ => String.eqb v v'
  | _, _ => false
  end.

(** [errors.Is(err, target)]: walks the chain of wrapped errors. *)
Fixpoint errors_Is (err target : error) : bool :=
  same_error err target ||
  match err with
  | fmt_Errorf_w _ inner => errors_Is inner target
  | _ => false
  end.

(** ** Settings, configurations and clients *)

(** [models.CloudWatchSettings] with its embedded Grafana settings; the
    fields are the ones the sources read. *)
Record GrafanaSettings : Type := {
  gs_ExternalID : string;
  gs_SecureSocksDSProxyEnabled : bool;
  gs_ListMetricsPageLimit : Z
}.

Record CloudWatchSettings : Type := {
  st_Region : string;
  st_Profile : string;
  st_AuthType : string;
  st_AssumeRoleARN : string;
  st_Endpoint : string;
  st_AccessKey : string;
  st_SecretKey : string;
  st_SecureSocksProxyEnabled : bool;
  st_GrafanaSettings : GrafanaSettings
}.

(** [proxy.Options] *)
Record proxy_Options : Type := { po_Enabled : bool; po_Address : string }.

(** [awsauth.Settings], as filled in by [newAWSConfig]. *)
Record awsauth_Settings : Type := {
  au_CredentialsProfile : string;
  au_LegacyAuthType : string;
  au_AssumeRoleARN : string;
  au_ExternalID : string;
  au_Endpoint : string;
  au_Region : string;
  au_AccessKey : string;
  au_SecretKey : string;
  au_ProxyOptions : option proxy_Options
}.

(** [aws.Config]: the region it was resolved for, the endpoint and the
    credentials it carries. *)
Record aws_Config : Type := {
  cfg_Region : string;
  cfg_BaseEndpoint : string;
  cfg_Credentials : string
}.

(** [aws.Config{}] *)
Definition aws_Config_zero : aws_Config :=
  {| cfg_Region := ""; cfg_BaseEndpoint := ""; cfg_Credentials := "" |}.

(** [backend.PluginContext] *)
Record PluginContext : Type := {
  pc_OrgID : Z;
  pc_PluginID : string;
  pc_DataSourceUID : string
}.

(** [log.Logger]; [FromContext] keeps the logger and adds the contextual
    attributes of the request, which no result depends on. *)
Record Logger : Type := { lg_name : string }.

Definition FromContext (l : Logger) : Logger := l.

(** Modelled from the spec: the client constructors [NewEC2API],
    [NewOAMAPI], [NewLogsAPI], [NewCWClient] and [clients.NewMetricsClient],
    which live in other files of the package.  Each is a pure constructor over a resolved configuration that
    performs no network call, so a client is the record of what it was
    constructed against. *)
Record EC2Client : Type := NewEC2API { ec2_cfg : aws_Config }.
Record OAMClient : Type := NewOAMAPI { oam_cfg : aws_Config }.
Record LogsClient : Type := NewLogsAPI { logs_cfg : aws_Config }.
Record CWClient : Type := NewCWClient { cw_cfg : aws_Config }.
Record MetricsClient : Type := NewMetricsClient {
  mc_client : CWClient;
  mc_listMetricsPageLimit : Z
}.

(** [models.RequestContext]; the four providers and the logger are
    interface values, nil being [None]. *)
Record RequestContext : Type := {
  OAMAPIProvider : option OAMClient;
  MetricsClientProvider : option MetricsClient;
  LogsAPIProvider : option LogsClient;
  EC2APIProvider : option EC2Client;
  Settings : CloudWatchSettings;
  rc_Logger : option Logger
}.

Definition GrafanaSettings_zero : GrafanaSettings :=
  {| gs_ExternalID := ""; gs_SecureSocksDSProxyEnabled := false;
     gs_ListMetricsPageLimit := 0 |}.

Definition CloudWatchSettings_zero : CloudWatchSettings :=
  {| st_Region := ""; st_Profile := ""; st_AuthType := "";
     st_AssumeRoleARN := ""; st_Endpoint := ""; st_AccessKey := "";
     st_SecretKey := ""; st_SecureSocksProxyEnabled := false;
     st_GrafanaSettings := GrafanaSettings_zero |}.

(** [models.RequestContext{}] *)
Definition RequestContext_zero : RequestContext :=
  {| OAMAPIProvider := None; MetricsClientProvider := None;
     LogsAPIProvider := None; EC2APIProvider := None;
     Settings := CloudWatchSettings_zero; rc_Logger := None |}.

(** ** The trace of outside calls *)

Inductive Event : Type :=
| EvInstanceGet (pluginCtx : PluginContext)
    (* ds.im.Get *)
| EvGetConfig (authSettings : awsauth_Settings)
    (* AWSConfigProvider.GetConfig *)
| EvListMetrics (client : MetricsClient) (ns metric : string)
    (* metricClient.ListMetricsWithPageLimit *)
| EvDescribeLogGroups (client : LogsClient) (limit : Z)
    (* logsClient.DescribeLogGroups *)
| EvFactory (region : string)
    (* a request-context factory under a call counter *)
| EvProvider (method : string) (arg : string)
    (* a method of a service built by a route handler *)
| EvHandler
    (* the handler wrapped by the simple adapter *)
| EvWriteHeader (code : Z)
    (* rw.WriteHeader *)
| EvWrite (body : string)
    (* rw.Write *)
| EvLogError (msg : string) (err : string).
    (* logger.Error *)

Definition World : Type := list Event.

(** A computation reads the trace and extends it. *)
Definition M (A : Type) : Type := World -> A * World.

Definition ret {A} (a : A) : M A := fun w => (a, w).

Definition bind {A B} (m : M A) (k : A -> M B) : M B :=
  fun w => let (a, w') := m w in k a w'.

Notation "'let*' x ':=' m 'in' k" := (bind m (fun x => k))
  (at level 10, x pattern, m at level 200, k at level 200).

(** An outside call: the answer is read off the trace so far, and the
    call is appended to the trace. *)
Definition call {A} (e : Event) (answer : World -> A) : M A :=
  fun w => (answer w, w ++ [e]).

(** [awsauth.ConfigProvider], an interface with the one method
    [GetConfig]. *)
Record ConfigProvider : Type := {
  GetConfig_answer : World -> awsauth_Settings -> aws_Config * option error
}.

Definition GetConfig (p : ConfigProvider) (authSettings : awsauth_Settings)
  : M (aws_Config * option error) :=
  call (EvGetConfig authSettings) (fun w => GetConfig_answer p w authSettings).

(** ** cloudwatch.go *)

Definition defaultRegion : string := "default".
Definition logsQueryMode : string := "Logs".
Definition annotationQuery : string := "annotationQuery".
Definition logAction : string := "logAction".
Definition timeSeriesQuery : string := "timeSeriesQuery".
Definition headerFromExpression : string := "X-Grafana-From-Expr".
Definition headerFromAlert : string := "FromAlert".

(** [DataSource]; the tag value cache plays no part in what follows. *)
Record DataSource : Type := {
  ds_Settings : CloudWatchSettings;
  ds_ProxyOpts : option proxy_Options;
  AWSConfigProvider : ConfigProvider;
  ds_logger : Logger
}.

(** A Go function that returns an interface value or a pointer next to an
    error returns [(nil, err)] or [(v, nil)]. *)
Inductive result (A : Type) : Type :=
| Failed (err : error)
| Built (v : A).
Arguments Failed {A} err.
Arguments Built {A} v.

(** [backend.CheckHealthRequest] and [backend.CheckHealthResult] *)
Record CheckHealthRequest : Type := { hr_PluginContext : PluginContext }.

Inductive HealthStatus : Type :=
| HealthStatusUnknown
| HealthStatusOk
| HealthStatusError.

Record CheckHealthResult : Type := {
  Status : HealthStatus;
  Message : string
}.

(** The line feed of the format ["1. %s\n2. %s"]. *)
Definition LF : string := String "010"%char EmptyString.

(** [backend.DataQuery] and [backend.QueryDataRequest]; [Headers] is a Go
    map from header name to value. *)
Record DataQuery : Type := {
  dq_RefID : string;
  dq_JSON : string
}.

Record QueryDataRequest : Type := {
  qr_PluginContext : PluginContext;
  qr_Headers : gmap string string;
  qr_Queries : list DataQuery
}.

(** [DataQueryJson]: the annotation query it embeds (of which the query
    mode is read here) and the [type] discriminator. *)
Record DataQueryJson : Type := {
  QueryMode : string;
  aq_Region : string;
  aq_Namespace : string;
  aq_MetricName : string;
  Type_ : string
}.

(** The four execution paths [QueryData] hands a request to.  They are
    defined in other files of the package; a value of this type is the
    call, with its arguments, whose results [QueryData] returns. *)
Inductive Execution : Type :=
| executeSyncLogQuery (ds : DataSource) (req : QueryDataRequest)
| executeAnnotationQuery (ds : DataSource) (pluginCtx : PluginContext)
    (model : DataQueryJson) (q : DataQuery)
| executeLogActions (ds : DataSource) (req : QueryDataRequest)
| executeTimeSeriesQuery (ds : DataSource) (req : QueryDataRequest).

(** [backend.QueryDataResponse], by reference id. *)
Record QueryDataResponse : Type := { Responses : gmap string string }.

Inductive QueryDataOutcome : Type :=
| Panics (msg : string)
| Returns (resp : option QueryDataResponse) (err : option error)
| ReturnsResultOf (e : Execution).

Section Cloudwatch.

(** [models.ErrMissingRegion], declared in the models package. *)
Variable ErrMissingRegion : error.

(** What the instance manager answers to [ds.im.Get]. *)
Variable im_Get : World -> PluginContext -> result DataSource.

Definition newAWSConfig (ds : DataSource) (region : string)
  : M (aws_Config * option error) :=
  let resolve (region : string) : M (aws_Config * option error) :=
    let authSettings :=
      {| au_CredentialsProfile := st_Profile (ds_Settings ds);
         au_LegacyAuthType := st_AuthType (ds_Settings ds);
         au_AssumeRoleARN := st_AssumeRoleARN (ds_Settings ds);
         au_ExternalID := gs_ExternalID (st_GrafanaSettings (ds_Settings ds));
         au_Endpoint := st_Endpoint (ds_Settings ds);
         au_Region := region;
         au_AccessKey := st_AccessKey (ds_Settings ds);
         au_SecretKey := st_SecretKey (ds_Settings ds);
         au_ProxyOptions :=
           if gs_SecureSocksDSProxyEnabled (st_GrafanaSettings (ds_Settings ds))
              && st_SecureSocksProxyEnabled (ds_Settings ds)
           then ds_ProxyOpts ds else None |} in
    let* (cfg, err) := GetConfig (AWSConfigProvider ds) authSettings in
    match err with
    | Some err => ret (aws_Config_zero, Some err)
    | None => ret (cfg, None)
    end in
  if String.eqb region defaultRegion then
    if Nat.eqb (String.length (st_Region (ds_Settings ds))) 0 then
      ret (aws_Config_zero, Some ErrMissingRegion)
    else resolve (st_Region (ds_Settings ds))
  else resolve region.

Definition getInstance (ds : DataSource) (pluginCtx : PluginContext)
  : M (result DataSource) :=
  let* i := call (EvInstanceGet pluginCtx) (fun w => im_Get w pluginCtx) in
  match i with
  | Failed err => ret (Failed err)
  | Built instance => ret (Built instance)
  end.

Definition getAWSConfig (ds : DataSource) (pluginCtx : PluginContext)
    (region : string) : M (aws_Config * option error) :=
  let* i := getInstance ds pluginCtx in
  match i with
  | Failed err => ret (aws_Config_zero, Some err)
  | Built instance => newAWSConfig instance region
  end.

Definition getRequestContext (ds : DataSource) (pluginCtx : PluginContext)
    (region : string) : M (RequestContext * option error) :=
  let* i := getInstance ds pluginCtx in
  match i with
  | Failed err => ret (RequestContext_zero, Some err)
  | Built instance =>
    let region :=
      if String.eqb region defaultRegion
      then st_Region (ds_Settings instance) else region in
    let* (cfg, err) := newAWSConfig instance defaultRegion in
    match err with
    | Some err => ret (RequestContext_zero, Some err)
    | None =>
      let ec2client := NewEC2API cfg in
      let* (cfg, err) := newAWSConfig instance region in
      match err with
      | Some err => ret (RequestContext_zero, Some err)
      | None =>
        ret ({| OAMAPIProvider := Some (NewOAMAPI cfg);
                MetricsClientProvider :=
                  Some (NewMetricsClient (NewCWClient cfg)
                          (gs_ListMetricsPageLimit
                             (st_GrafanaSettings (ds_Settings instance))));
                LogsAPIProvider := Some (NewLogsAPI cfg);
                EC2APIProvider := Some ec2client;
                Settings := ds_Settings instance;
                rc_Logger := Some (FromContext (ds_logger ds)) |}, None)
      end
    end
  end.

Definition getRequestContextOnlySettings (ds : DataSource)
    (pluginCtx : PluginContext) (_ : string)
  : M (RequestContext * option error) :=
  let* i := getInstance ds pluginCtx in
  match i with
  | Failed err => ret (RequestContext_zero, Some err)
  | Built instance =>
    ret ({| OAMAPIProvider := None;
            MetricsClientProvider := None;
            LogsAPIProvider := None;
            EC2APIProvider := None;
            Settings := ds_Settings instance;
            rc_Logger := Some (FromContext (ds_logger ds)) |}, None)
  end.

(** *** Health check *)

(** What [ListMetricsWithPageLimit] and [DescribeLogGroups] answer; the
    listings themselves are dropped by the callers, which keep the
    error. *)
Variable ListMetricsWithPageLimit_answer :
  World -> MetricsClient -> string -> string -> list string * option error.
Variable DescribeLogGroups_answer :
  World -> LogsClient -> Z -> list string * option error.

Definition checkHealthMetrics (ds : DataSource) (pluginCtx : PluginContext)
  : M (option error) :=
  let namespace := "AWS/Billing" in
  let metric := "EstimatedCharges" in
  let* i := getInstance ds pluginCtx in
  match i with
  | Failed err => ret (Some err)
  | Built instance =>
    let* (cfg, err) := newAWSConfig instance defaultRegion in
    match err with
    | Some err => ret (Some err)
    | None =>
      let metricClient :=
        NewMetricsClient (NewCWClient cfg)
          (gs_ListMetricsPageLimit
             (st_GrafanaSettings (ds_Settings instance))) in
      let* (_, err) :=
        call (EvListMetrics metricClient namespace metric)
          (fun w => ListMetricsWithPageLimit_answer w metricClient
                      namespace metric) in
      ret err
    end
  end.

Definition checkHealthLogs (ds : DataSource) (pluginCtx : PluginContext)
  : M (option error) :=
  let* (cfg, err) := getAWSConfig ds pluginCtx defaultRegion in
  match err with
  | Some err => ret (Some err)
  | None =>
    let logsClient := NewLogsAPI cfg in
    let* (_, err) :=
      call (EvDescribeLogGroups logsClient 1)
        (fun w => DescribeLogGroups_answer w logsClient 1) in
    ret err
  end.

Definition CheckHealth (ds : DataSource) (req : CheckHealthRequest)
  : M (CheckHealthResult * option error) :=
  let status := HealthStatusOk in
  let metricsTest := "Successfully queried the CloudWatch metrics API." in
  let logsTest := "Successfully queried the CloudWatch logs API." in
  let* err := checkHealthMetrics ds (hr_PluginContext req) in
  let (status, metricsTest) :=
    match err with
    | Some err =>
      (HealthStatusError, "CloudWatch metrics query failed: " +:+ Error err)
    | None => (status, metricsTest)
    end in
  let* err := checkHealthLogs ds (hr_PluginContext req) in
  let (status, logsTest) :=
    match err with
    | Some err =>
      (HealthStatusError, "CloudWatch logs query failed: " +:+ Error err)
    | None => (status, logsTest)
    end in
  ret ({| Status := status;
          Message := "1. " +:+ metricsTest +:+ LF +:+ "2. " +:+ logsTest |},
       None).

(** *** Query dispatch *)

(** [json.Unmarshal] into a [DataQueryJson], and the plugin SDK's
    [req.GetHTTPHeader], which reads the headers of the request. *)
Variable json_Unmarshal : string -> DataQueryJson * option error.
Variable GetHTTPHeader : gmap string string -> string -> string.

Definition QueryData (ds : DataSource) (req : QueryDataRequest)
  : QueryDataOutcome :=
  match qr_Queries req with
  | [] => Panics "index out of range [0] with length 0"
  | q :: _ =>
    let (model, err) := json_Unmarshal (dq_JSON q) in
    match err with
    | Some err => Returns None (Some err)
    | None =>
      let fromAlert :=
        match qr_Headers req !! headerFromAlert with
        | Some _ => true
        | None => false
        end in
      let fromExpression :=
        negb (String.eqb (GetHTTPHeader (qr_Headers req) headerFromExpression)
                "") in
      let queryMode :=
        if negb (String.eqb (QueryMode model) "")
        then QueryMode model else "" in
      let fromPublicDashboard :=
        String.eqb (Type_ model) "" && String.eqb queryMode logsQueryMode in
      let isSyncLogQuery :=
        ((fromAlert || fromExpression) && String.eqb queryMode logsQueryMode)
        || fromPublicDashboard in
      if isSyncLogQuery then
        ReturnsResultOf (executeSyncLogQuery ds req)
      else if String.eqb (Type_ model) annotationQuery then
        ReturnsResultOf
          (executeAnnotationQuery ds (qr_PluginContext req) model q)
      else if String.eqb (Type_ model) logAction then
        ReturnsResultOf (executeLogActions ds req)
      else if String.eqb (Type_ model) timeSeriesQuery then
        ReturnsResultOf (executeTimeSeriesQuery ds req)
      else
        ReturnsResultOf (executeTimeSeriesQuery ds req)
    end
  end.

End Cloudwatch.

(** ** net/http and net/url *)

Definition http_StatusOK : Z := 200.
Definition http_StatusBadRequest : Z := 400.
Definition http_StatusForbidden : Z := 403.
Definition http_StatusInternalServerError : Z := 500.

(** [url.Values.Get]: the first value of the key, or the empty string. *)
Definition url_Get (v : gmap string (list string)) (key : string) : string :=
  match v !! key with
  | Some (x :: _) => x
  | _ => ""
  end.

(** [http.Request], as far as the adapters look at it. *)
Record Request : Type := {
  rq_Method : string;
  rq_RawQuery : string;
  rq_Body : string
}.

(** ** The simple adapter *)

Record suggestData : Type := {
  sd_Text : string;
  sd_Value : string;
  sd_Label : string
}.

Section ResourceHandlers.

(** [req.ParseForm] and [req.URL.Query], of net/http and net/url; what
    [rw.Write] answers; [json.Marshal] on a list of suggestions. *)
Variable ParseForm : Request -> option error.
Variable URL_Query : Request -> gmap string (list string).
Variable Write_answer : World -> string -> option error.
Variable json_Marshal_suggestData :
  list suggestData -> string * option error.

Definition writeResponse (code : Z) (msg : string) (logger : Logger)
  : M unit :=
  let* _ := call (EvWriteHeader code) (fun _ => tt) in
  let* err := call (EvWrite msg) (fun w => Write_answer w msg) in
  match err with
  | Some err =>
    call (EvLogError "Unable to write HTTP response" (Error err))
      (fun _ => tt)
  | None => ret tt
  end.

Definition handleFn : Type :=
  gmap string (list string) -> M (list suggestData * option error).

Definition handleResourceReq (handleFunc : handleFn) (logger : Logger)
    (req : Request) : M unit :=
  let err := ParseForm req in
  match err with
  | Some err =>
    writeResponse http_StatusBadRequest ("unexpected error " +:+ Error err)
      (FromContext logger)
  | None =>
    let* (data, err) := handleFunc (URL_Query req) in
    match err with
    | Some err =>
      writeResponse http_StatusBadRequest ("unexpected error " +:+ Error err)
        (FromContext logger)
    | None =>
      let (body, err) := json_Marshal_suggestData data in
      match err with
      | Some err =>
        writeResponse http_StatusBadRequest
          ("unexpected error " +:+ Error err) (FromContext logger)
      | None =>
        let* _ := call (EvWriteHeader http_StatusOK) (fun _ => tt) in
        let* err := call (EvWrite body) (fun w => Write_answer w body) in
        match err with
        | Some err =>
          call (EvLogError "Unable to write HTTP response" (Error err))
            (fun _ => tt)
        | None => ret tt
        end
      end
    end
  end.

End ResourceHandlers.

(** ** Route handlers *)

(** Modelled from the spec: [models.HttpError] and [models.NewHttpError],
    declared in the models package: a normalized error carrying a human
    message, an HTTP status code, and a wrapped cause. *)
Record HttpError : Type := NewHttpError {
  he_Message : string;
  he_StatusCode : Z;
  he_cause : error
}.

(** Modelled from the spec: what the middleware adapter
    [routes.ResourceRequestMiddleware], declared in another file of the
    routes package, writes for the result of a handler: on a nil error
    the raw byte payload with status 200; on an [HttpError] that error's
    declared status code and message, with no fallback translation. *)
Inductive ResponseBody : Type :=
| RawPayload (bytes : string)
| ErrorPayload (e : HttpError).

Definition middlewareResponse (r : string * option HttpError)
  : Z * ResponseBody :=
  match r with
  | (json, None) => (http_StatusOK, RawPayload json)
  | (_, Some httpError) => (he_StatusCode httpError, ErrorPayload httpError)
  end.

(** [models.RequestContextFactoryFunc] *)
Definition RequestContextFactoryFunc : Type :=
  string -> M (RequestContext * option error).

(** [resources.Account], and the interface [models.AccountsProvider]. *)
Record Account : Type := {
  acc_Id : string;
  acc_Label : string;
  acc_Arn : string;
  acc_IsMonitoringAccount : bool
}.

Record AccountsProvider : Type := {
  GetAccountsForCurrentUserOrRole_answer :
    World -> list Account * option error
}.

Definition GetAccountsForCurrentUserOrRole (service : AccountsProvider)
  : M (list Account * option error) :=
  call (EvProvider "GetAccountsForCurrentUserOrRole" "")
    (GetAccountsForCurrentUserOrRole_answer service).

(** [resources.DimensionValuesRequest], and the interface
    [models.ListMetricsProvider]. *)
Record DimensionValuesRequest : Type := {
  dv_Region : string;
  dv_AccountId : string;
  dv_Namespace : string;
  dv_MetricName : string;
  dv_DimensionKey : string;
  dv_DimensionFilter : list (string * string)
}.

Record ListMetricsProvider : Type := {
  GetDimensionValuesByDimensionFilter_answer :
    World -> DimensionValuesRequest -> list string * option error
}.

Definition GetDimensionValuesByDimensionFilter (service : ListMetricsProvider)
    (r : DimensionValuesRequest) : M (list string * option error) :=
  call (EvProvider "GetDimensionValuesByDimensionFilter" (dv_DimensionKey r))
    (fun w => GetDimensionValuesByDimensionFilter_answer service w r).

Record ExternalIdResponse : Type := { ExternalId : string }.

(** The double quote of JSON texts. *)
Definition DQ : string := String "034"%char EmptyString.

Section Routes.

(** Declared in other packages and files of the repository: the
    sentinel [services.ErrAccessDeniedException], the constructor
    [services.NewAccountsService], the parser
    [resources.GetDimensionValuesRequest] and the factory
    [newListMetricsService]. *)
Variable ErrAccessDeniedException : error.
Variable NewAccountsService : option OAMClient -> AccountsProvider.
Variable GetDimensionValuesRequest :
  gmap string (list string) -> DimensionValuesRequest * option error.
Variable newListMetricsService :
  RequestContextFactoryFunc -> string -> M (result ListMetricsProvider).

(** [json.Marshal] on a list of accounts and on a list of dimension
    values, and the quoting of a string by encoding/json. *)
Variable json_Marshal_accounts : list Account -> string * option error.
Variable json_Marshal_values : list string -> string * option error.
Variable json_quote : string -> string.

(** [json.Marshal] on an [ExternalIdResponse]: a struct with one string
    field is always encoded, the string being quoted and escaped. *)
Definition json_Marshal_ExternalIdResponse (r : ExternalIdResponse)
  : string * option error :=
  ("{" +:+ DQ +:+ "externalId" +:+ DQ +:+ ":" +:+ json_quote (ExternalId r) +:+ "}",
   None).

Definition newAccountsService (reqCtxFactory : RequestContextFactoryFunc)
    (region : string) : M (result AccountsProvider) :=
  let* (oamClient, err) := reqCtxFactory region in
  match err with
  | Some err => ret (Failed err)
  | None => ret (Built (NewAccountsService (OAMAPIProvider oamClient)))
  end.

Definition AccountsHandler (reqCtxFactory : RequestContextFactoryFunc)
    (parameters : gmap string (list string))
  : M (string * option HttpError) :=
  let region := url_Get parameters "region" in
  if String.eqb region "" then
    ret ("", Some (NewHttpError "error in AccountsHandler"
                     http_StatusBadRequest
                     (fmt_Errorf "region is required")))
  else
    let* service := newAccountsService reqCtxFactory region in
    match service with
    | Failed err =>
      ret ("", Some (NewHttpError "error in AccountsHandler"
                       http_StatusInternalServerError err))
    | Built service =>
      let* (accounts, err) := GetAccountsForCurrentUserOrRole service in
      match err with
      | Some err =>
        let msg := "error getting accounts for current user or role" in
        if errors_Is err ErrAccessDeniedException then
          ret ("", Some (NewHttpError msg http_StatusForbidden err))
        else
          ret ("", Some (NewHttpError msg http_StatusInternalServerError err))
      | None =>
        let (accountsResponse, err) := json_Marshal_accounts accounts in
        match err with
        | Some err =>
          ret ("", Some (NewHttpError "error in AccountsHandler"
                           http_StatusInternalServerError err))
        | None => ret (accountsResponse, None)
        end
      end
    end.

Definition DimensionValuesHandler (reqCtxFactory : RequestContextFactoryFunc)
    (parameters : gmap string (list string))
  : M (string * option HttpError) :=
  let (dimensionValuesRequest, err) := GetDimensionValuesRequest parameters in
  match err with
  | Some err =>
    ret ("", Some (NewHttpError "error in DimensionValuesHandler"
                     http_StatusBadRequest err))
  | None =>
    let* service :=
      newListMetricsService reqCtxFactory (dv_Region dimensionValuesRequest) in
    match service with
    | Failed err =>
      ret ("", Some (NewHttpError "error in DimensionValuesHandler"
                       http_StatusInternalServerError err))
    | Built service =>
      let* (response, err) :=
        GetDimensionValuesByDimensionFilter service dimensionValuesRequest in
      match err with
      | Some err =>
        ret ("", Some (NewHttpError "error in DimensionValuesHandler"
                         http_StatusInternalServerError err))
      | None =>
        let (dimensionValuesResponse, err) := json_Marshal_values response in
        match err with
        | Some err =>
          ret ("", Some (NewHttpError "error in DimensionValuesHandler"
                           http_StatusInternalServerError err))
        | None => ret (dimensionValuesResponse, None)
        end
      end
    end
  end.

Definition ExternalIdHandler (reqCtxBeforeAuth : RequestContextFactoryFunc)
    (_ : gmap string (list string)) : M (string * option HttpError) :=
  let* (reqCtx, err) := reqCtxBeforeAuth "" in
  match err with
  | Some err =>
    ret ("", Some (NewHttpError "error in ExternalIdHandler"
                     http_StatusInternalServerError err))
  | None =>
    let response :=
      {| ExternalId := gs_ExternalID (st_GrafanaSettings (Settings reqCtx)) |} in
    let (jsonResponse, err) := json_Marshal_ExternalIdResponse response in
    match err with
    | Some err =>
      ret ("", Some (NewHttpError "error in ExternalIdHandler"
                       http_StatusInternalServerError err))
    | None => ret (jsonResponse, None)
    end
  end.

End Routes.

(** ** The rest of cloudwatch.go *)

(** Modelled from the spec: the client constructors [NewCWLogsClient] and
    [NewRGTAClient], which live in other files of the package; like the
    other constructors they are pure over a resolved configuration. *)
Record CWLogsClient : Type := NewCWLogsClient { cwlogs_cfg : aws_Config }.
Record RGTAClient : Type := NewRGTAClient { rgta_cfg : aws_Config }.

Section Clients.

Variable ErrMissingRegion : error.
Variable im_Get : World -> PluginContext -> result DataSource.

Definition getCWClient (ds : DataSource) (pluginCtx : PluginContext)
    (region : string) : M (result CWClient) :=
  let* (cfg, err) := getAWSConfig ErrMissingRegion im_Get ds pluginCtx region in
  match err with
  | Some err => ret (Failed err)
  | None => ret (Built (NewCWClient cfg))
  end.

Definition getCWLogsClient (ds : DataSource) (pluginCtx : PluginContext)
    (region : string) : M (result CWLogsClient) :=
  let* (cfg, err) := getAWSConfig ErrMissingRegion im_Get ds pluginCtx region in
  match err with
  | Some err => ret (Failed err)
  | None =>
    let logsClient := NewCWLogsClient cfg in
    ret (Built logsClient)
  end.

Definition getEC2Client (ds : DataSource) (pluginCtx : PluginContext)
    (region : string) : M (result EC2Client) :=
  let* (cfg, err) := getAWSConfig ErrMissingRegion im_Get ds pluginCtx region in
  match err with
  | Some err => ret (Failed err)
  | None => ret (Built (NewEC2API cfg))
  end.

Definition getRGTAClient (ds : DataSource) (pluginCtx : PluginContext)
    (region : string) : M (result RGTAClient) :=
  let* (cfg, err) := getAWSConfig ErrMissingRegion im_Get ds pluginCtx region in
  match err with
  | Some err => ret (Failed err)
  | None => ret (Built (NewRGTAClient cfg))
  end.

End Clients.

(** [cloudwatchlogstypes.QueryStatus] is a string type; the values are
    the ones the AWS SDK declares. *)
Definition QueryStatusScheduled : string := "Scheduled".
Definition QueryStatusRunning : string := "Running".
Definition QueryStatusComplete : string := "Complete".
Definition QueryStatusFailed : string := "Failed".
Definition QueryStatusCancelled : string := "Cancelled".
Definition QueryStatusTimeout : string := "Timeout".
Definition QueryStatusUnknown : string := "Unknown".

Definition terminatedStates : list string :=
  [ QueryStatusComplete; QueryStatusCancelled; QueryStatusFailed;
    QueryStatusTimeout ].

(** [slices.Contains] on strings. *)
Fixpoint slices_Contains (s : list string) (v : string) : bool :=
  match s with
  | [] => false
  | x :: s' => String.eqb v x || slices_Contains s' v
  end.

Definition isTerminated (queryStatus : string) : bool :=
  slices_Contains terminatedStates queryStatus.

(** [backend.DataSourceInstanceSettings] and [backend.User], and the
    plugin context with the two pointers [instrumentContext] looks at. *)
Record DataSourceInstanceSettings : Type := {
  dsi_Name : string;
  dsi_UID : string;
  dsi_JSONData : string
}.

Record User : Type := { usr_Login : string }.

Record InstrumentedPluginContext : Type := {
  ipc_PluginID : string;
  ipc_DataSourceInstanceSettings : option DataSourceInstanceSettings;
  ipc_User : option User
}.

(** [instrumentContext]: the key-values it hands to
    [log.WithContextualAttributes]. *)
Definition instrumentContext (endpoint : string)
    (pCtx : InstrumentedPluginContext) : list string :=
  let p := ["endpoint"; endpoint; "pluginId"; ipc_PluginID pCtx] in
  let p :=
    match ipc_DataSourceInstanceSettings pCtx with
    | Some settings =>
      (p ++ ["dsName"; dsi_Name settings]) ++ ["dsUID"; dsi_UID settings]
    | None => p
    end in
  let p :=
    match ipc_User pCtx with
    | Some user => p ++ ["uname"; usr_Login user]
    | None => p
    end in
  p.

(** [time.Hour] in nanoseconds, and the expiry of the tag value cache. *)
Definition time_Hour : Z := 3600000000000.
Definition tagValueCacheExpiration : Z := time_Hour * 24.

(** [cache.New(defaultExpiration, cleanupInterval)] *)
Record Cache : Type := cache_New {
  cache_defaultExpiration : Z;
  cache_cleanupInterval : Z
}.

(** The [DataSource] value [NewDatasource] returns: the record above with
    the tag value cache it leaves out. *)
Record DataSourceInstance : Type := {
  inst_DataSource : DataSource;
  tagValueCache : Cache
}.

(** [httpclient.Options] *)
Record httpclient_Options : Type := {
  ho_ProxyOptions : option proxy_Options
}.

Section NewDatasource.

(** [models.LoadCloudWatchSettings], the SDK's
    [settings.HTTPClientOptions] and [awsauth.NewConfigProvider]. *)
Variable LoadCloudWatchSettings :
  DataSourceInstanceSettings -> CloudWatchSettings * option error.
Variable HTTPClientOptions :
  DataSourceInstanceSettings -> httpclient_Options * option error.
Variable awsauth_NewConfigProvider : ConfigProvider.

Definition NewDatasource (settings : DataSourceInstanceSettings)
  : result DataSourceInstance :=
  let (instanceSettings, err) := LoadCloudWatchSettings settings in
  match err with
  | Some err =>
    Failed (fmt_Errorf_w ("error reading settings: " +:+ Error err) err)
  | None =>
    let (opts, err) := HTTPClientOptions settings in
    match err with
    | Some err => Failed err
    | None =>
      Built {| inst_DataSource :=
                 {| ds_Settings := instanceSettings;
                    ds_ProxyOpts := ho_ProxyOptions opts;
                    AWSConfigProvider := awsauth_NewConfigProvider;
                    ds_logger :=
                      {| lg_name := "grafana-cloudwatch-datasource" |} |};
               tagValueCache :=
                 cache_New tagValueCacheExpiration
                   (tagValueCacheExpiration * 5) |}
    end
  end.

End NewDatasource.

(** ** The resource mux *)

(** The handlers [newResourceMux] registers, by name: the four methods
    served through [handleResourceReq] and the nine route handlers served
    through [routes.ResourceRequestMiddleware], each with the factory it
    is given. *)
Inductive SimpleHandler : Type :=
| handleGetEbsVolumeIds
| handleGetEc2InstanceAttribute
| handleGetResourceArns
| handleGetLogGroups.

Module routes.

Inductive Handler : Type :=
| LogGroupsHandler
| MetricsHandler
| DimensionValuesHandler
| DimensionKeysHandler
| AccountsHandler
| NamespacesHandler
| LogGroupFieldsHandler
| ExternalIdHandler
| RegionsHandler.

End routes.

Inductive Factory : Type :=
| ds_getRequestContext
| ds_getRequestContextOnlySettings.

Inductive Registration : Type :=
| viaHandleResourceReq (handleFunc : SimpleHandler)
| viaResourceRequestMiddleware (handleFunc : routes.Handler)
    (reqCtxFactory : Factory).

(** [http.ServeMux] with plain patterns: the registrations in order.
    [HandleFunc] panics ([None]) on an empty pattern and on a pattern that
    is already registered. *)
Definition ServeMux : Type := list (string * Registration).

Definition http_NewServeMux : ServeMux := [].

Definition registered (mux : ServeMux) (pattern : string) : bool :=
  existsb (fun e => String.eqb (fst e) pattern) mux.

Definition HandleFunc (mux : ServeMux) (pattern : string)
    (handler : Registration) : option ServeMux :=
  if String.eqb pattern "" then None
  else if registered mux pattern then None
  else Some (mux ++ [(pattern, handler)]).

(** The handler a path without trailing slash is served by. *)
Definition mux_Handler (mux : ServeMux) (path : string) : option Registration :=
  snd <$> find (fun e => String.eqb (fst e) path) mux.

Definition newResourceMux : option ServeMux :=
  mux ← Some http_NewServeMux;
  mux ← HandleFunc mux "/ebs-volume-ids"
          (viaHandleResourceReq handleGetEbsVolumeIds);
  mux ← HandleFunc mux "/ec2-instance-attribute"
          (viaHandleResourceReq handleGetEc2InstanceAttribute);
  mux ← HandleFunc mux "/resource-arns"
          (viaHandleResourceReq handleGetResourceArns);
  mux ← HandleFunc mux "/log-groups"
          (viaResourceRequestMiddleware routes.LogGroupsHandler
             ds_getRequestContext);
  mux ← HandleFunc mux "/metrics"
          (viaResourceRequestMiddleware routes.MetricsHandler
             ds_getRequestContext);
  mux ← HandleFunc mux "/dimension-values"
          (viaResourceRequestMiddleware routes.DimensionValuesHandler
             ds_getRequestContext);
  mux ← HandleFunc mux "/dimension-keys"
          (viaResourceRequestMiddleware routes.DimensionKeysHandler
             ds_getRequestContext);
  mux ← HandleFunc mux "/accounts"
          (viaResourceRequestMiddleware routes.AccountsHandler
             ds_getRequestContext);
  mux ← HandleFunc mux "/namespaces"
          (viaResourceRequestMiddleware routes.NamespacesHandler
             ds_getRequestContext);
  mux ← HandleFunc mux "/log-group-fields"
          (viaResourceRequestMiddleware routes.LogGroupFieldsHandler
             ds_getRequestContext);
  mux ← HandleFunc mux "/external-id"
          (viaResourceRequestMiddleware routes.ExternalIdHandler
             ds_getRequestContextOnlySettings);
  mux ← HandleFunc mux "/regions"
          (viaResourceRequestMiddleware routes.RegionsHandler
             ds_getRequestContext);
  mux ← HandleFunc mux "/legacy-log-groups"
          (viaHandleResourceReq handleGetLogGroups);
  Some mux.

(** ** The route handlers that take the plugin context *)

Module WithPluginContext.

(** The factory type of the handlers that pass the plugin context on. *)
Definition RequestContextFactoryFunc : Type :=
  PluginContext -> string -> M (RequestContext * option error).

Section Handlers.

Variable GetDimensionValuesRequest :
  gmap string (list string) -> DimensionValuesRequest * option error.
Variable newListMetricsService :
  PluginContext -> RequestContextFactoryFunc -> string ->
  M (result ListMetricsProvider).
Variable json_Marshal_values : list string -> string * option error.
Variable json_quote : string -> string.

Definition DimensionValuesHandler (pluginCtx : PluginContext)
    (reqCtxFactory : RequestContextFactoryFunc)
    (parameters : gmap string (list string))
  : M (string * option HttpError) :=
  let (dimensionValuesRequest, err) := GetDimensionValuesRequest parameters in
  match err with
  | Some err =>
    ret ("", Some (NewHttpError "error in DimensionValuesHandler"
                     http_StatusBadRequest err))
  | None =>
    let* service :=
      newListMetricsService pluginCtx reqCtxFactory
        (dv_Region dimensionValuesRequest) in
    match service with
    | Failed err =>
      ret ("", Some (NewHttpError "error in DimensionValuesHandler"
                       http_StatusInternalServerError err))
    | Built service =>
      let* (response, err) :=
        GetDimensionValuesByDimensionFilter service dimensionValuesRequest in
      match err with
      | Some err =>
        ret ("", Some (NewHttpError "error in DimensionValuesHandler"
                         http_StatusInternalServerError err))
      | None =>
        let (dimensionValuesResponse, err) := json_Marshal_values response in
        match err with
        | Some err =>
          ret ("", Some (NewHttpError "error in DimensionValuesHandler"
                           http_StatusInternalServerError err))
        | None => ret (dimensionValuesResponse, None)
        end
      end
    end
  end.

Definition ExternalIdHandler (pluginCtx : PluginContext)
    (reqCtxBeforeAuth : RequestContextFactoryFunc)
    (parameters : gmap string (list string)) : M (string * option HttpError) :=
  let* (reqCtx, err) := reqCtxBeforeAuth pluginCtx "" in
  match err with
  | Some err =>
    ret ("", Some (NewHttpError "error in ExternalIdHandler"
                     http_StatusInternalServerError err))
  | None =>
    let response :=
      {| ExternalId := gs_ExternalID (st_GrafanaSettings (Settings reqCtx)) |} in
    let (jsonResponse, err) :=
      json_Marshal_ExternalIdResponse json_quote response in
    match err with
    | Some err =>
      ret ("", Some (NewHttpError "error in ExternalIdHandler"
                       http_StatusInternalServerError err))
    | None => ret (jsonResponse, None)
    end
  end.

End Handlers.

End WithPluginContext.

(** The key-values of a list of contextual attributes, read in pairs. *)
Fixpoint keyValues (p : list string) : list (string * string) :=
  match p with
  | k :: v :: p' => (k, v) :: keyValues p'
  | _ => []
  end.

(** ** Reading a trace *)

(** The regions for which a configuration was resolved, in order. *)
Fixpoint resolvedRegions (tr : World) : list string :=
  match tr with
  | [] => []
  | EvGetConfig a :: tr' => au_Region a :: resolvedRegions tr'
  | _ :: tr' => resolvedRegions tr'
  end.

(** The regions a counted request-context factory was called with. *)
Fixpoint factoryCalls (tr : World) : list string :=
  match tr with
  | [] => []
  | EvFactory region :: tr' => region :: factoryCalls tr'
  | _ :: tr' => factoryCalls tr'
  end.

(** How often the handler wrapped by the simple adapter ran. *)
Fixpoint handlerCalls (tr : World) : nat :=
  match tr with
  | [] => 0%nat
  | EvHandler :: tr' => S (handlerCalls tr')
  | _ :: tr' => handlerCalls tr'
  end.

(** The trace after a response of [code] and [body] was written: the
    header, the body and, when writing the body failed, the log entry. *)
Definition written (Write_answer : World -> string -> option error)
    (code : Z) (body : string) (w : World) : World :=
  w ++ [EvWriteHeader code; EvWrite body] ++
  match Write_answer (w ++ [EvWriteHeader code]) body with
  | Some err => [EvLogError "Unable to write HTTP response" (Error err)]
  | None => []
  end.

(** A factory under a call counter, and a handler under one. *)
Definition counted (f : RequestContextFactoryFunc) : RequestContextFactoryFunc :=
  fun region => let* _ := call (EvFactory region) (fun _ => tt) in f region.

Definition observed (h : handleFn) : handleFn :=
  fun parameters => let* _ := call EvHandler (fun _ => tt) in h parameters.

(** The authentication settings [newAWSConfig] assembles for a region. *)
Definition authSettingsFor (ds : DataSource) (region : string)
  : awsauth_Settings :=
  {| au_CredentialsProfile := st_Profile (ds_Settings ds);
     au_LegacyAuthType := st_AuthType (ds_Settings ds);
     au_AssumeRoleARN := st_AssumeRoleARN (ds_Settings ds);
     au_ExternalID := gs_ExternalID (st_GrafanaSettings (ds_Settings ds));
     au_Endpoint := st_Endpoint (ds_Settings ds);
     au_Region := region;
     au_AccessKey := st_AccessKey (ds_Settings ds);
     au_SecretKey := st_SecretKey (ds_Settings ds);
     au_ProxyOptions :=
       if gs_SecureSocksDSProxyEnabled (st_GrafanaSettings (ds_Settings ds))
          && st_SecureSocksProxyEnabled (ds_Settings ds)
       then ds_ProxyOpts ds else None |}.

(** What [newAWSConfig] returns for an answer of the provider. *)
Definition resolved (r : aws_Config * option error) : aws_Config * option error :=
  match r with
  | (_, Some err) => (aws_Config_zero, Some err)
  | (cfg, None) => (cfg, None)
  end.

(** The region a request for [region] is served from. *)
Definition effectiveRegion (instance : DataSource) (region : string) : string :=
  if String.eqb region defaultRegion
  then st_Region (ds_Settings instance) else region.

(** A context is full when its four clients are there. *)
Definition fullContext (c : RequestContext) : Prop :=
  is_Some (OAMAPIProvider c) /\ is_Some (MetricsClientProvider c) /\
  is_Some (LogsAPIProvider c) /\ is_Some (EC2APIProvider c).

(** The lines of a text. *)
Fixpoint lines (s : string) : list string :=
  match s with
  | EmptyString => [EmptyString]
  | String c s' =>
    if Ascii.eqb c "010"%char then EmptyString :: lines s'
    else match lines s' with
         | l :: ls => String c l :: ls
         | [] => [String c EmptyString]
         end
  end.

Fixpoint hasLineBreak (s : string) : bool :=
  match s with
  | EmptyString => false
  | String c s' => Ascii.eqb c "010"%char || hasLineBreak s'
  end.

(** What the two lines of the health message report. *)
Definition metricsOutcome (err : option error) : string :=
  match err with
  | None => "Successfully queried the CloudWatch metrics API."
  | Some err => "CloudWatch metrics query failed: " +:+ Error err
  end.

Definition logsOutcome (err : option error) : string :=
  match err with
  | None => "Successfully queried the CloudWatch logs API."
  | Some err => "CloudWatch logs query failed: " +:+ Error err
  end.

Definition errorHasLineBreak (err : option error) : bool :=
  match err with
  | None => false
  | Some err => hasLineBreak (Error err)
  end.

(** The one region a check resolves: the home region, when there is one. *)
Definition homeResolution (instance : DataSource) : list string :=
  if Nat.eqb (String.length (st_Region (ds_Settings instance))) 0
  then [] else [st_Region (ds_Settings instance)].

(** The path a call of [QueryData] took. *)
Inductive Path : Type :=
| PathPanic
| PathError
| PathSyncLog
| PathAnnotation
| PathLogAction
| PathTimeSeries.

Definition pathOf (o : QueryDataOutcome) : Path :=
  match o with
  | Panics _ => PathPanic
  | Returns _ _ => PathError
  | ReturnsResultOf (executeSyncLogQuery _ _) => PathSyncLog
  | ReturnsResultOf (executeAnnotationQuery _ _ _ _) => PathAnnotation
  | ReturnsResultOf (executeLogActions _ _) => PathLogAction
  | ReturnsResultOf (executeTimeSeriesQuery _ _) => PathTimeSeries
  end.

(** ** An instance for examples *)

Module Fixture.

Definition ErrMissingRegion : error :=
  errors_New "models.ErrMissingRegion" "missing default region".

Definition ErrAccessDeniedException : error :=
  errors_New "services.ErrAccessDeniedException" "access denied".

Definition settings (home : string) : CloudWatchSettings :=
  {| st_Region := home; st_Profile := "grafana"; st_AuthType := "keys";
     st_AssumeRoleARN := ""; st_Endpoint := ""; st_AccessKey := "AKIA";
     st_SecretKey := "secret"; st_SecureSocksProxyEnabled := false;
     st_GrafanaSettings :=
       {| gs_ExternalID := "ext-123";
          gs_SecureSocksDSProxyEnabled := false;
          gs_ListMetricsPageLimit := 500 |} |}.

Definition configOf (a : awsauth_Settings) : aws_Config :=
  {| cfg_Region := au_Region a; cfg_BaseEndpoint := au_Endpoint a;
     cfg_Credentials := au_AccessKey a |}.

(** A provider that resolves every region but [bad]. *)
Definition provider (bad : string) : ConfigProvider :=
  {| GetConfig_answer := fun _ a =>
       if String.eqb (au_Region a) bad
       then (configOf a, Some (fmt_Errorf "no credentials"))
       else (configOf a, None) |}.

Definition ds (home bad : string) : DataSource :=
  {| ds_Settings := settings home; ds_ProxyOpts := None;
     AWSConfigProvider := provider bad;
     ds_logger := {| lg_name := "grafana-cloudwatch-datasource" |} |}.

Definition pluginCtx : PluginContext :=
  {| pc_OrgID := 1; pc_PluginID := "cloudwatch"; pc_DataSourceUID := "uid" |}.

Definition im (home bad : string) : World -> PluginContext -> result DataSource :=
  fun _ _ => Built (ds home bad).

Definition noInstance : World -> PluginContext -> result DataSource :=
  fun _ _ => Failed (fmt_Errorf "instance disposed").

Definition listsMetrics
  : World -> MetricsClient -> string -> string -> list string * option error :=
  fun _ _ _ _ => (["EstimatedCharges"], None).

(** A metrics API that refuses, with an error text of two lines. *)
Definition refusesMetrics
  : World -> MetricsClient -> string -> string -> list string * option error :=
  fun _ _ _ _ =>
    ([], Some (fmt_Errorf ("AccessDenied:" +:+ LF +:+ "not authorized"))).

Definition describesLogGroups
  : World -> LogsClient -> Z -> list string * option error :=
  fun _ _ _ => (["/aws/lambda/app"], None).

(** A logs query saved with a type, as JSON text, and a decoder that
    knows this one text. *)
Definition quoted (s : string) : string := DQ +:+ s +:+ DQ.

Definition logsQueryJSON : string :=
  "{" +:+ quoted "queryMode" +:+ ":" +:+ quoted "Logs" +:+ "," +:+
  quoted "type" +:+ ":" +:+ quoted "timeSeriesQuery" +:+ "}".

Definition logsQueryModel : DataQueryJson :=
  {| QueryMode := "Logs"; aq_Region := ""; aq_Namespace := "";
     aq_MetricName := ""; Type_ := "timeSeriesQuery" |}.

Definition unmarshal (text : string) : DataQueryJson * option error :=
  if String.eqb text logsQueryJSON then (logsQueryModel, None)
  else ({| QueryMode := ""; aq_Region := ""; aq_Namespace := "";
           aq_MetricName := ""; Type_ := "" |},
        Some (fmt_Errorf "unexpected end of JSON input")).

(** The SDK keeps forwarded HTTP headers under the prefix [http_]. *)
Definition getHTTPHeader (headers : gmap string string) (key : string)
  : string :=
  match headers !! ("http_" +:+ key) with
  | Some v => v
  | None => ""
  end.

Definition alertRequest : QueryDataRequest :=
  {| qr_PluginContext := pluginCtx;
     qr_Headers := {[ "FromAlert" := "true" ]};
     qr_Queries := [ {| dq_RefID := "A"; dq_JSON := logsQueryJSON |} ] |}.

(** A factory that builds the context of the fixture instance. *)
Definition factory : RequestContextFactoryFunc :=
  getRequestContext ErrMissingRegion (im "us-east-1" "none")
    (ds "us-east-1" "none") pluginCtx.

Definition countedFactory : RequestContextFactoryFunc := counted factory.

(** An accounts service that lists two accounts, and one that is denied
    access. *)
Definition twoAccounts : list Account :=
  [ {| acc_Id := "111"; acc_Label := "prod"; acc_Arn := "";
       acc_IsMonitoringAccount := true |};
    {| acc_Id := "222"; acc_Label := "dev"; acc_Arn := "";
       acc_IsMonitoringAccount := false |} ].

Definition accountsService (_ : option OAMClient) : AccountsProvider :=
  {| GetAccountsForCurrentUserOrRole_answer := fun _ => (twoAccounts, None) |}.

Definition deniedService (_ : option OAMClient) : AccountsProvider :=
  {| GetAccountsForCurrentUserOrRole_answer := fun _ =>
       ([], Some (fmt_Errorf_w "access denied: not authorized to list links"
                    ErrAccessDeniedException)) |}.

Definition throttledService (_ : option OAMClient) : AccountsProvider :=
  {| GetAccountsForCurrentUserOrRole_answer := fun _ =>
       ([], Some (fmt_Errorf "ThrottlingException: rate exceeded")) |}.

Fixpoint joined (sep : string) (l : list string) : string :=
  match l with
  | [] => ""
  | [x] => x
  | x :: l' => x +:+ sep +:+ joined sep l'
  end.

Definition marshalAccount (a : Account) : string :=
  "{" +:+ quoted "id" +:+ ":" +:+ quoted (acc_Id a) +:+ "," +:+
  quoted "label" +:+ ":" +:+ quoted (acc_Label a) +:+ "}".

Definition marshalAccounts (l : list Account) : string * option error :=
  ("[" +:+ joined "," (map marshalAccount l) +:+ "]", None).

Definition marshalValues (l : list string) : string * option error :=
  ("[" +:+ joined "," (map quoted l) +:+ "]", None).

(** A parser of the dimension values request that asks for a dimension
    key, a metrics service over the context of the factory, and a
    provider of two values. *)
Definition parseDimensionValues (parameters : gmap string (list string))
  : DimensionValuesRequest * option error :=
  let r := {| dv_Region := url_Get parameters "region"; dv_AccountId := "";
              dv_Namespace := url_Get parameters "namespace";
              dv_MetricName := url_Get parameters "metricName";
              dv_DimensionKey := url_Get parameters "dimensionKey";
              dv_DimensionFilter := [] |} in
  if String.eqb (url_Get parameters "dimensionKey") ""
  then (r, Some (fmt_Errorf "error in unmarshaling dimensionFilters"))
  else (r, None).

Definition zoneService : ListMetricsProvider :=
  {| GetDimensionValuesByDimensionFilter_answer := fun _ _ =>
       (["us-east-1a"; "us-east-1b"], None) |}.

Definition listMetricsService (f : RequestContextFactoryFunc) (region : string)
  : M (result ListMetricsProvider) :=
  let* (reqCtx, err) := f region in
  match err with
  | Some err => ret (Failed err)
  | None => ret (Built zoneService)
  end.

(** A request with a query that does not parse as a form, and one for
    the volumes of a region. *)
Definition parseForm (req : Request) : option error :=
  if String.eqb (rq_RawQuery req) "region=%zz"
  then Some (fmt_Errorf "invalid URL escape") else None.

Definition query (req : Request) : gmap string (list string) :=
  if String.eqb (rq_RawQuery req) "region=us-east-1"
  then {[ "region" := ["us-east-1"] ]} else ∅.

Definition marshalSuggestions (l : list suggestData) : string * option error :=
  ("[" +:+ joined "," (map (fun d => "{" +:+ quoted "text" +:+ ":" +:+
                                     quoted (sd_Text d) +:+ "," +:+
                                     quoted "value" +:+ ":" +:+
                                     quoted (sd_Value d) +:+ "}") l) +:+ "]",
   None).

Definition volumes : handleFn :=
  fun parameters =>
    if String.eqb (url_Get parameters "region") ""
    then ret ([], Some (fmt_Errorf "region is required"))
    else ret ([ {| sd_Text := "vol-1"; sd_Value := "vol-1"; sd_Label := "" |} ],
              None).

Definition writes : World -> string -> option error := fun _ _ => None.

(** A data source with the secure socks proxy enabled on both sides. *)
Definition proxied : DataSource :=
  {| ds_Settings :=
       {| st_Region := "us-east-1"; st_Profile := "grafana";
          st_AuthType := "keys"; st_AssumeRoleARN := ""; st_Endpoint := "";
          st_AccessKey := "AKIA"; st_SecretKey := "secret";
          st_SecureSocksProxyEnabled := true;
          st_GrafanaSettings :=
            {| gs_ExternalID := "ext-123";
               gs_SecureSocksDSProxyEnabled := true;
               gs_ListMetricsPageLimit := 500 |} |};
     ds_ProxyOpts := Some {| po_Enabled := true; po_Address := "proxy:1080" |};
     AWSConfigProvider := provider "none";
     ds_logger := {| lg_name := "grafana-cloudwatch-datasource" |} |}.

Definition instanceSettings : DataSourceInstanceSettings :=
  {| dsi_Name := "CloudWatch"; dsi_UID := "uid"; dsi_JSONData := "{}" |}.

End Fixture.

(** * Properties *)

Ltac run :=
  unfold bind, call, ret in *; simpl in *.

Lemma newAWSConfig_cases (ErrMissingRegion : error) (ds : DataSource)
    (region : string) (w : World) :
  newAWSConfig ErrMissingRegion ds region w =
  if String.eqb region defaultRegion
     && Nat.eqb (String.length (st_Region (ds_Settings ds))) 0
  then ((aws_Config_zero, Some ErrMissingRegion), w)
  else
    let a := authSettingsFor ds (effectiveRegion ds region) in
    (resolved (GetConfig_answer (AWSConfigProvider ds) w a),
     w ++ [EvGetConfig a]).
Proof.
  unfold newAWSConfig, effectiveRegion, GetConfig, authSettingsFor.
  destruct (String.eqb region defaultRegion); simpl.
  - destruct (Nat.eqb _ 0); [reflexivity|]. run.
    destruct (GetConfig_answer _ _ _) as [cfg [e|]]; reflexivity.
  - run. destruct (GetConfig_answer _ _ _) as [cfg [e|]]; reflexivity.
Qed.

Lemma effectiveRegion_idem (instance : DataSource) (region : string) :
  effectiveRegion instance (effectiveRegion instance region) =
  effectiveRegion instance region.
Proof.
  unfold effectiveRegion.
  destruct (String.eqb region defaultRegion) eqn:Hr.
  - destruct (String.eqb (st_Region (ds_Settings instance)) defaultRegion);
      reflexivity.
  - rewrite Hr. reflexivity.
Qed.

Lemma resolvedRegions_app (tr tr' : World) :
  resolvedRegions (tr ++ tr') = resolvedRegions tr ++ resolvedRegions tr'.
Proof.
  induction tr as [|e tr IH]; [reflexivity|].
  destruct e; simpl; rewrite IH; reflexivity.
Qed.

Section CloudwatchProperties.

Variable ErrMissingRegion : error.
Variable im_Get : World -> PluginContext -> result DataSource.

(** Without an instance there is no context. *)
Lemma getRequestContext_no_instance (ds : DataSource)
    (pluginCtx : PluginContext) (region : string) (w : World) (err : error) :
  im_Get w pluginCtx = Failed err ->
  getRequestContext ErrMissingRegion im_Get ds pluginCtx region w =
  ((RequestContext_zero, Some err), w ++ [EvInstanceGet pluginCtx]).
Proof.
  intros Him. unfold getRequestContext, getInstance. run.
  rewrite Him. reflexivity.
Qed.

(** The three ways [getRequestContext] ends once the instance is there. *)
Lemma getRequestContext_cases (ds instance : DataSource)
    (pluginCtx : PluginContext) (region : string) (w : World) :
  im_Get w pluginCtx = Built instance ->
  let d := newAWSConfig ErrMissingRegion instance defaultRegion
             (w ++ [EvInstanceGet pluginCtx]) in
  let t := newAWSConfig ErrMissingRegion instance
             (effectiveRegion instance region) d.2 in
  getRequestContext ErrMissingRegion im_Get ds pluginCtx region w =
  match d.1.2 with
  | Some err => ((RequestContext_zero, Some err), d.2)
  | None =>
    match t.1.2 with
    | Some err => ((RequestContext_zero, Some err), t.2)
    | None =>
      (({| OAMAPIProvider := Some (NewOAMAPI t.1.1);
           MetricsClientProvider :=
             Some (NewMetricsClient (NewCWClient t.1.1)
                     (gs_ListMetricsPageLimit
                        (st_GrafanaSettings (ds_Settings instance))));
           LogsAPIProvider := Some (NewLogsAPI t.1.1);
           EC2APIProvider := Some (NewEC2API d.1.1);
           Settings := ds_Settings instance;
           rc_Logger := Some (FromContext (ds_logger ds)) |}, None), t.2)
    end
  end.
Proof.
  intros Him d t. subst d t.
  unfold getRequestContext, getInstance, effectiveRegion. run.
  rewrite Him. simpl.
  destruct (newAWSConfig _ instance defaultRegion _) as [[cfgD [e|]] w1]; simpl;
    [reflexivity|].
  destruct (newAWSConfig _ instance _ w1) as [[cfgT [e|]] w2]; reflexivity.
Qed.

Local Abbreviation newAWSConfig := (newAWSConfig ErrMissingRegion).
Local Abbreviation getRequestContext :=
  (getRequestContext ErrMissingRegion im_Get).

(** C6. When the requested region is the sentinel [default], the
    configuration is resolved for the home region of the instance
    ([Settings.Region]) and not for the sentinel: [newAWSConfig] asks the
    provider once, with the home region in the authentication settings
    (an instance without a home region is refused with
    [ErrMissingRegion] before the provider is asked), and a context
    requested for [default] is the context requested for the home
    region. *)
Theorem newAWSConfig_default_resolves_home_region (ds : DataSource)
    (pluginCtx : PluginContext) (w : World) :
  let home := st_Region (ds_Settings ds) in
  let a := authSettingsFor ds home in
  au_Region a = home /\
  (home <> "" ->
   newAWSConfig ds defaultRegion w =
   (resolved (GetConfig_answer (AWSConfigProvider ds) w a),
    w ++ [EvGetConfig a]) /\
   resolvedRegions (newAWSConfig ds defaultRegion w).2 =
   resolvedRegions w ++ [home]) /\
  (home = "" ->
   newAWSConfig ds defaultRegion w = ((aws_Config_zero, Some ErrMissingRegion), w)) /\
  (forall instance : DataSource,
     im_Get w pluginCtx = Built instance ->
     getRequestContext ds pluginCtx defaultRegion w =
     getRequestContext ds pluginCtx (st_Region (ds_Settings instance)) w).
Proof.
  intros home a. split; [reflexivity|]. split; [|split].
  - intros Hne. rewrite newAWSConfig_cases.
    assert (Hlen : Nat.eqb (String.length home) 0 = false).
    { destruct home; [congruence | reflexivity]. }
    subst home. rewrite Hlen. simpl. split; [reflexivity|].
    rewrite resolvedRegions_app. reflexivity.
  - intros He. rewrite newAWSConfig_cases. subst home. rewrite He. reflexivity.
  - intros instance Him.
    rewrite !(getRequestContext_cases ds instance) by assumption.
    assert (Heff : effectiveRegion instance defaultRegion =
                   effectiveRegion instance (st_Region (ds_Settings instance))).
    { unfold effectiveRegion. simpl.
      destruct (String.eqb (st_Region (ds_Settings instance)) defaultRegion);
        reflexivity. }
    rewrite Heff. reflexivity.
Qed.

(** C1, as the code has it.  When [getRequestContext] succeeds, the
    compute-instance (EC2) client is constructed against the configuration
    resolved for the default region, and the account-discovery (OAM),
    metrics and logs clients are all three constructed against the
    configuration resolved for the requested region. *)
Theorem getRequestContext_clients (ds : DataSource) (pluginCtx : PluginContext)
    (region : string) (w : World) (ctx : RequestContext) (w' : World) :
  getRequestContext ds pluginCtx region w = ((ctx, None), w') ->
  exists (instance : DataSource) (cfgHome : aws_Config) (w1 : World)
         (cfgTarget : aws_Config),
    im_Get w pluginCtx = Built instance /\
    newAWSConfig instance defaultRegion (w ++ [EvInstanceGet pluginCtx]) =
      ((cfgHome, None), w1) /\
    newAWSConfig instance (effectiveRegion instance region) w1 =
      ((cfgTarget, None), w') /\
    EC2APIProvider ctx = Some (NewEC2API cfgHome) /\
    OAMAPIProvider ctx = Some (NewOAMAPI cfgTarget) /\
    MetricsClientProvider ctx =
      Some (NewMetricsClient (NewCWClient cfgTarget)
              (gs_ListMetricsPageLimit
                 (st_GrafanaSettings (ds_Settings instance)))) /\
    LogsAPIProvider ctx = Some (NewLogsAPI cfgTarget).
Proof.
  intros H.
  destruct (im_Get w pluginCtx) as [e|instance] eqn:Him.
  - rewrite (getRequestContext_no_instance _ _ _ _ _ Him) in H. discriminate.
  - rewrite (getRequestContext_cases ds instance) in H by assumption.
    simpl in H.
    destruct (newAWSConfig instance defaultRegion _) as [[cfgD [e|]] w1] eqn:Hd;
      simpl in H; [discriminate|].
    destruct (newAWSConfig instance _ w1) as [[cfgT [e|]] w2] eqn:Ht;
      simpl in H; [discriminate|].
    inversion H; subst; clear H.
    exists instance, cfgD, w1, cfgT. simpl. repeat split; assumption.
Qed.

(** C5. The full build is all-or-nothing and ordered.  An error comes with
    the empty context and success with a full one.  When resolving the
    default-region configuration fails, the build returns that error in
    the very trace the failed resolution left: nothing is resolved for the
    target region (at most the one resolution for the home region was
    asked of the provider).  When resolving the target-region
    configuration fails, the build returns that error with the empty
    context.  When both resolve, the one for the home region was asked
    for first and the one for the requested region second. *)
Theorem getRequestContext_all_or_nothing (ds : DataSource)
    (pluginCtx : PluginContext) (region : string) (w : World) :
  let r := getRequestContext ds pluginCtx region w in
  ((forall err, r.1.2 = Some err -> r.1.1 = RequestContext_zero) /\
   (r.1.2 = None -> fullContext r.1.1)) /\
  (forall err, im_Get w pluginCtx = Failed err ->
     r = ((RequestContext_zero, Some err), w ++ [EvInstanceGet pluginCtx])) /\
  (forall instance : DataSource,
     im_Get w pluginCtx = Built instance ->
     let d := newAWSConfig instance defaultRegion (w ++ [EvInstanceGet pluginCtx]) in
     let t := newAWSConfig instance (effectiveRegion instance region) d.2 in
     (forall err, d.1.2 = Some err ->
        r = ((RequestContext_zero, Some err), d.2) /\
        (resolvedRegions r.2 = resolvedRegions w \/
         resolvedRegions r.2 =
         resolvedRegions w ++ [st_Region (ds_Settings instance)])) /\
     (d.1.2 = None -> forall err, t.1.2 = Some err ->
        r = ((RequestContext_zero, Some err), t.2)) /\
     (d.1.2 = None -> t.1.2 = None ->
        r.1.2 = None /\
        resolvedRegions r.2 =
        resolvedRegions w ++ [st_Region (ds_Settings instance);
                              effectiveRegion instance region])).
Proof.
  intros r. subst r.
  destruct (im_Get w pluginCtx) as [e|instance] eqn:Him.
  - rewrite (getRequestContext_no_instance _ _ _ _ _ Him). simpl. repeat split; try discriminate.
    intros err Herr. inversion Herr; reflexivity.
  - rewrite (getRequestContext_cases ds instance) by assumption.
    split; [|split; [intros err; discriminate|]].
    + destruct (newAWSConfig instance defaultRegion _) as [[cfgD [e|]] w1];
        simpl; [split; [reflexivity | discriminate]|].
      destruct (newAWSConfig instance _ w1) as [[cfgT [e|]] w2];
        simpl; [split; [reflexivity | discriminate]|].
      split; [discriminate|]. intros _. unfold fullContext; simpl.
      repeat split; eexists; reflexivity.
    + intros instance' Hi. inversion Hi; subst instance'; clear Hi.
      intros d t. subst t d. split.
      * intros err Hd. rewrite Hd. split; [reflexivity|]. simpl.
        rewrite newAWSConfig_cases in *.
        destruct (_ && _); simpl in *.
        -- left. rewrite resolvedRegions_app. simpl.
           rewrite app_nil_r. reflexivity.
        -- right. rewrite !resolvedRegions_app. simpl.
           rewrite app_nil_r. reflexivity.
      * split; [intros Hd err Ht; rewrite Hd, Ht; reflexivity|].
        intros Hd Ht. rewrite Hd, Ht. simpl. split; [reflexivity|].
        rewrite !newAWSConfig_cases in *. simpl in *.
        destruct (Nat.eqb _ 0); simpl in *; [discriminate|].
        destruct (_ && _); simpl in *; [discriminate|].
        rewrite !resolvedRegions_app. simpl.
        rewrite effectiveRegion_idem, app_nil_r, <- app_assoc. reflexivity.
Qed.

End CloudwatchProperties.

(** C1 as stated fails: with home region us-east-1 and a context
    requested for eu-west-1, the account-discovery client is constructed
    against the configuration resolved for eu-west-1, not the one resolved
    for the default region (which the compute-instance client gets). *)
Lemma getRequestContext_oam_not_home_region :
  let ds := Fixture.ds "us-east-1" "none" in
  let r := getRequestContext Fixture.ErrMissingRegion
             (Fixture.im "us-east-1" "none") ds Fixture.pluginCtx
             "eu-west-1" [] in
  let home := newAWSConfig Fixture.ErrMissingRegion ds defaultRegion
                [EvInstanceGet Fixture.pluginCtx] in
  r.1.2 = None /\ home.1.2 = None /\
  cfg_Region home.1.1 = "us-east-1" /\
  EC2APIProvider r.1.1 = Some (NewEC2API home.1.1) /\
  oam_cfg <$> OAMAPIProvider r.1.1 =
    Some {| cfg_Region := "eu-west-1"; cfg_BaseEndpoint := "";
            cfg_Credentials := "AKIA" |} /\
  OAMAPIProvider r.1.1 <> Some (NewOAMAPI home.1.1).
Proof.
  vm_compute. repeat split; try reflexivity. discriminate.
Qed.

Lemma getRequestContext_clients_witness :
  let ds := Fixture.ds "us-east-1" "none" in
  let im := Fixture.im "us-east-1" "none" in
  exists (ctx : RequestContext) (w' : World),
    getRequestContext Fixture.ErrMissingRegion im ds Fixture.pluginCtx
      "eu-west-1" [] = ((ctx, None), w') /\
    exists (instance : DataSource) (cfgHome : aws_Config) (w1 : World)
           (cfgTarget : aws_Config),
      im [] Fixture.pluginCtx = Built instance /\
      newAWSConfig Fixture.ErrMissingRegion instance defaultRegion
        ([] ++ [EvInstanceGet Fixture.pluginCtx]) = ((cfgHome, None), w1) /\
      newAWSConfig Fixture.ErrMissingRegion instance
        (effectiveRegion instance "eu-west-1") w1 = ((cfgTarget, None), w') /\
      EC2APIProvider ctx = Some (NewEC2API cfgHome) /\
      OAMAPIProvider ctx = Some (NewOAMAPI cfgTarget) /\
      MetricsClientProvider ctx =
        Some (NewMetricsClient (NewCWClient cfgTarget)
                (gs_ListMetricsPageLimit
                   (st_GrafanaSettings (ds_Settings instance)))) /\
      LogsAPIProvider ctx = Some (NewLogsAPI cfgTarget).
Proof.
  intros ds im. eexists _, _. split.
  - vm_compute. reflexivity.
  - apply (getRequestContext_clients Fixture.ErrMissingRegion im ds
             Fixture.pluginCtx "eu-west-1" []).
    vm_compute. reflexivity.
Defined.

(** *** Lines *)

Lemma lines_nonempty (s : string) : lines s <> [].
Proof.
  destruct s as [|c s]; simpl; [discriminate|].
  destruct (Ascii.eqb c "010"); [discriminate|].
  destruct (lines s); discriminate.
Qed.

Lemma lines_one (s : string) : hasLineBreak s = false -> lines s = [s].
Proof.
  induction s as [|c s IH]; simpl; [reflexivity|].
  destruct (Ascii.eqb c "010"); simpl; [discriminate|].
  intros H. rewrite (IH H). reflexivity.
Qed.

Lemma lines_break (a b : string) :
  hasLineBreak a = false -> lines (a +:+ LF +:+ b) = a :: lines b.
Proof.
  induction a as [|c a IH]; simpl; [reflexivity|].
  destruct (Ascii.eqb c "010"); simpl; [discriminate|].
  intros H. rewrite (IH H). reflexivity.
Qed.

Lemma hasLineBreak_app (a b : string) :
  hasLineBreak (a +:+ b) = hasLineBreak a || hasLineBreak b.
Proof.
  induction a as [|c a IH]; simpl; [reflexivity|].
  rewrite IH. apply orb_assoc.
Qed.

Lemma metricsOutcome_one_line (err : option error) :
  errorHasLineBreak err = false -> hasLineBreak (metricsOutcome err) = false.
Proof.
  destruct err as [e|]; simpl; [|reflexivity].
  intros H. exact H.
Qed.

Lemma logsOutcome_one_line (err : option error) :
  errorHasLineBreak err = false -> hasLineBreak (logsOutcome err) = false.
Proof.
  destruct err as [e|]; simpl; [|reflexivity].
  intros H. exact H.
Qed.

Section HealthProperties.

Variable ErrMissingRegion : error.
Variable im_Get : World -> PluginContext -> result DataSource.
Variable ListMetricsWithPageLimit_answer :
  World -> MetricsClient -> string -> string -> list string * option error.
Variable DescribeLogGroups_answer :
  World -> LogsClient -> Z -> list string * option error.

(** The metrics check resolves the default region and lists one metric
    with a client for that configuration. *)
Lemma checkHealthMetrics_cases (ds : DataSource) (pluginCtx : PluginContext)
    (w : World) :
  checkHealthMetrics ErrMissingRegion im_Get ListMetricsWithPageLimit_answer
    ds pluginCtx w =
  match im_Get w pluginCtx with
  | Failed err => (Some err, w ++ [EvInstanceGet pluginCtx])
  | Built instance =>
    let d := newAWSConfig ErrMissingRegion instance defaultRegion
               (w ++ [EvInstanceGet pluginCtx]) in
    match d.1.2 with
    | Some err => (Some err, d.2)
    | None =>
      let client :=
        NewMetricsClient (NewCWClient d.1.1)
          (gs_ListMetricsPageLimit (st_GrafanaSettings (ds_Settings instance))) in
      ((ListMetricsWithPageLimit_answer d.2 client "AWS/Billing"
          "EstimatedCharges").2,
       d.2 ++ [EvListMetrics client "AWS/Billing" "EstimatedCharges"])
    end
  end.
Proof.
  unfold checkHealthMetrics, getInstance. run.
  destruct (im_Get w pluginCtx) as [e|instance]; simpl; [reflexivity|].
  destruct (newAWSConfig _ instance defaultRegion _) as [[cfg [e|]] w1]; simpl;
    [reflexivity|].
  destruct (ListMetricsWithPageLimit_answer _ _ _ _); reflexivity.
Qed.

(** The logs check resolves the default region and describes one log
    group with a client for that configuration. *)
Lemma checkHealthLogs_cases (ds : DataSource) (pluginCtx : PluginContext)
    (w : World) :
  checkHealthLogs ErrMissingRegion im_Get DescribeLogGroups_answer
    ds pluginCtx w =
  match im_Get w pluginCtx with
  | Failed err => (Some err, w ++ [EvInstanceGet pluginCtx])
  | Built instance =>
    let d := newAWSConfig ErrMissingRegion instance defaultRegion
               (w ++ [EvInstanceGet pluginCtx]) in
    match d.1.2 with
    | Some err => (Some err, d.2)
    | None =>
      ((DescribeLogGroups_answer d.2 (NewLogsAPI d.1.1) 1).2,
       d.2 ++ [EvDescribeLogGroups (NewLogsAPI d.1.1) 1])
    end
  end.
Proof.
  unfold checkHealthLogs, getAWSConfig, getInstance. run.
  destruct (im_Get w pluginCtx) as [e|instance]; simpl; [reflexivity|].
  destruct (newAWSConfig _ instance defaultRegion _) as [[cfg [e|]] w1]; simpl;
    [reflexivity|].
  destruct (DescribeLogGroups_answer _ _ _); reflexivity.
Qed.

Lemma newAWSConfig_default_regions (instance : DataSource) (w : World) :
  resolvedRegions (newAWSConfig ErrMissingRegion instance defaultRegion w).2 =
  resolvedRegions w ++ homeResolution instance.
Proof.
  rewrite newAWSConfig_cases. unfold homeResolution. simpl.
  destruct (Nat.eqb _ 0); simpl.
  - now rewrite app_nil_r.
  - now rewrite resolvedRegions_app.
Qed.

(** Both checks run, in this order, and their outcomes are put together. *)
Lemma CheckHealth_result (ds : DataSource) (req : CheckHealthRequest)
    (w : World) :
  let pluginCtx := hr_PluginContext req in
  let m := checkHealthMetrics ErrMissingRegion im_Get
             ListMetricsWithPageLimit_answer ds pluginCtx w in
  let l := checkHealthLogs ErrMissingRegion im_Get DescribeLogGroups_answer
             ds pluginCtx m.2 in
  CheckHealth ErrMissingRegion im_Get ListMetricsWithPageLimit_answer
    DescribeLogGroups_answer ds req w =
  (({| Status := match m.1, l.1 with
                 | None, None => HealthStatusOk
                 | _, _ => HealthStatusError
                 end;
       Message := "1. " +:+ metricsOutcome m.1 +:+ LF +:+
                  "2. " +:+ logsOutcome l.1 |}, None), l.2).
Proof.
  intros pluginCtx m l. subst l m pluginCtx. unfold CheckHealth. run.
  destruct (checkHealthMetrics _ _ _ _ _ w) as [[e|] w1]; simpl;
    destruct (checkHealthLogs _ _ _ _ _ w1) as [[e'|] w2];
    reflexivity.
Qed.

Local Abbreviation checkHealthMetrics :=
  (checkHealthMetrics ErrMissingRegion im_Get ListMetricsWithPageLimit_answer).
Local Abbreviation checkHealthLogs :=
  (checkHealthLogs ErrMissingRegion im_Get DescribeLogGroups_answer).
Local Abbreviation CheckHealth :=
  (CheckHealth ErrMissingRegion im_Get ListMetricsWithPageLimit_answer
     DescribeLogGroups_answer).


End HealthProperties.


Section QueryProperties.

Variable json_Unmarshal : string -> DataQueryJson * option error.
Variable GetHTTPHeader : gmap string string -> string -> string.

(** [QueryData] on a request whose first query decodes. *)
Lemma QueryData_decoded (ds : DataSource) (req : QueryDataRequest)
    (q : DataQuery) (rest : list DataQuery) (model : DataQueryJson) :
  qr_Queries req = q :: rest ->
  json_Unmarshal (dq_JSON q) = (model, None) ->
  QueryData json_Unmarshal GetHTTPHeader ds req =
  if ((match qr_Headers req !! headerFromAlert with
       | Some _ => true
       | None => false
       end
       || negb (String.eqb (GetHTTPHeader (qr_Headers req) headerFromExpression) ""))
      && String.eqb (QueryMode model) logsQueryMode)
     || (String.eqb (Type_ model) "" && String.eqb (QueryMode model) logsQueryMode)
  then ReturnsResultOf (executeSyncLogQuery ds req)
  else if String.eqb (Type_ model) annotationQuery
  then ReturnsResultOf (executeAnnotationQuery ds (qr_PluginContext req) model q)
  else if String.eqb (Type_ model) logAction
  then ReturnsResultOf (executeLogActions ds req)
  else ReturnsResultOf (executeTimeSeriesQuery ds req).
Proof.
  intros Hq Hm. unfold QueryData. rewrite Hq, Hm.
  assert (Hmode : (if negb (String.eqb (QueryMode model) "")
                   then QueryMode model else "") = QueryMode model).
  { destruct (String.eqb_spec (QueryMode model) ""); simpl; congruence. }
  rewrite Hmode.
  destruct (String.eqb (Type_ model) timeSeriesQuery); reflexivity.
Qed.

(** The path [QueryData] takes, read off the first query alone. *)
Lemma QueryData_path (ds : DataSource) (req : QueryDataRequest) :
  pathOf (QueryData json_Unmarshal GetHTTPHeader ds req) =
  match qr_Queries req with
  | [] => PathPanic
  | q :: _ =>
    let (model, err) := json_Unmarshal (dq_JSON q) in
    match err with
    | Some _ => PathError
    | None =>
      if ((match qr_Headers req !! headerFromAlert with
           | Some _ => true
           | None => false
           end
           || negb (String.eqb (GetHTTPHeader (qr_Headers req)
                                  headerFromExpression) ""))
          && String.eqb (QueryMode model) logsQueryMode)
         || (String.eqb (Type_ model) ""
             && String.eqb (QueryMode model) logsQueryMode)
      then PathSyncLog
      else if String.eqb (Type_ model) annotationQuery then PathAnnotation
      else if String.eqb (Type_ model) logAction then PathLogAction
      else PathTimeSeries
    end
  end.
Proof.
  destruct (qr_Queries req) as [|q rest] eqn:Hq.
  - unfold QueryData. rewrite Hq. reflexivity.
  - destruct (json_Unmarshal (dq_JSON q)) as [model [e|]] eqn:Hm.
    + unfold QueryData. rewrite Hq, Hm. reflexivity.
    + rewrite (QueryData_decoded ds req q rest model Hq Hm).
      repeat match goal with
             | |- context [if ?b then _ else _] => destruct b
             end; reflexivity.
Qed.

Local Abbreviation QueryData := (QueryData json_Unmarshal GetHTTPHeader).

(** C2. For a request whose first query decodes to [model]: it is handed
    to the synchronous log execution exactly when the query mode is Logs
    and either the FromAlert header is present, or the X-Grafana-From-Expr
    header is not empty, or the type is empty.  Otherwise the type
    decides: annotationQuery goes to the annotation execution, logAction
    to the log actions, and every other type, set or not, to the time
    series execution.  With FromAlert present and query mode Logs the
    request goes to the synchronous log execution whatever the type. *)
Theorem QueryData_routing (ds : DataSource) (req : QueryDataRequest)
    (q : DataQuery) (rest : list DataQuery) (model : DataQueryJson) :
  qr_Queries req = q :: rest ->
  json_Unmarshal (dq_JSON q) = (model, None) ->
  let fromAlert := is_Some (qr_Headers req !! headerFromAlert) in
  let fromExpression :=
    GetHTTPHeader (qr_Headers req) headerFromExpression <> "" in
  let logs := QueryMode model = logsQueryMode in
  let sync := ((fromAlert \/ fromExpression) /\ logs) \/
              (Type_ model = "" /\ logs) in
  (QueryData ds req = ReturnsResultOf (executeSyncLogQuery ds req) <-> sync) /\
  (pathOf (QueryData ds req) = PathSyncLog <-> sync) /\
  (~ sync -> Type_ model = annotationQuery ->
   QueryData ds req =
   ReturnsResultOf (executeAnnotationQuery ds (qr_PluginContext req) model q)) /\
  (~ sync -> Type_ model = logAction ->
   QueryData ds req = ReturnsResultOf (executeLogActions ds req)) /\
  (~ sync -> Type_ model <> annotationQuery -> Type_ model <> logAction ->
   QueryData ds req = ReturnsResultOf (executeTimeSeriesQuery ds req)) /\
  (fromAlert -> logs ->
   QueryData ds req = ReturnsResultOf (executeSyncLogQuery ds req)).
Proof.
  intros Hq Hm fromAlert fromExpression logs sync.
  rewrite (QueryData_decoded ds req q rest model Hq Hm).
  set (b := ((match qr_Headers req !! headerFromAlert with
              | Some _ => true
              | None => false
              end
              || negb (String.eqb (GetHTTPHeader (qr_Headers req)
                                     headerFromExpression) ""))
             && String.eqb (QueryMode model) logsQueryMode)
            || (String.eqb (Type_ model) ""
                && String.eqb (QueryMode model) logsQueryMode)).
  assert (Hb : b = true <-> sync).
  { subst b sync fromAlert fromExpression logs.
    destruct (qr_Headers req !! headerFromAlert) as [v|] eqn:Hh;
      destruct (String.eqb_spec (GetHTTPHeader (qr_Headers req)
                                   headerFromExpression) "") as [He|He];
      destruct (String.eqb_spec (QueryMode model) logsQueryMode) as [Hl|Hl];
      destruct (String.eqb_spec (Type_ model) "") as [Ht|Ht];
      simpl; split; intros H; try reflexivity; try discriminate;
      try solve [ left; split; [left; eexists; reflexivity | assumption]
                | left; split; [right; assumption | assumption]
                | right; split; assumption ];
      destruct H as [[[[x Hx]|Hx] Hy]|[Hx Hy]];
      solve [ contradiction | discriminate | congruence ]. }
  destruct b.
  - assert (Hs : sync) by (apply Hb; reflexivity).
    repeat split; try (intros; reflexivity); try (intros; assumption);
      intros Hn; contradiction.
  - assert (Hs : ~ sync) by (intros Hs; apply Hb in Hs; discriminate).
    split; [|split; [|split; [|split; [|split]]]].
    + split; [|intros Hs'; contradiction].
      destruct (String.eqb (Type_ model) annotationQuery);
        [discriminate|].
      destruct (String.eqb (Type_ model) logAction); discriminate.
    + split; [|intros Hs'; contradiction].
      destruct (String.eqb (Type_ model) annotationQuery);
        [discriminate|].
      destruct (String.eqb (Type_ model) logAction); discriminate.
    + intros _ Ht. rewrite Ht. reflexivity.
    + intros _ Ht. rewrite Ht. reflexivity.
    + intros _ Ha Hl.
      destruct (String.eqb_spec (Type_ model) annotationQuery);
        [contradiction|].
      destruct (String.eqb_spec (Type_ model) logAction);
        [contradiction|reflexivity].
    + intros Ha Hl. exfalso. apply Hs. left. split; [left|]; assumption.
Qed.

(** C10. [QueryData] indexes the first query of the request: it panics
    exactly when the list of queries is empty, and the path it takes
    (also the early return on a query that does not decode) is the same
    for any two requests with the same headers and the same first query,
    whatever queries follow. *)
Theorem QueryData_first_query_only (ds : DataSource) (req : QueryDataRequest) :
  (qr_Queries req = [] <-> pathOf (QueryData ds req) = PathPanic) /\
  (forall (q : DataQuery) (rest rest' : list DataQuery)
          (pluginCtx : PluginContext),
     qr_Queries req = q :: rest ->
     pathOf (QueryData ds req) =
     pathOf (QueryData ds {| qr_PluginContext := pluginCtx;
                             qr_Headers := qr_Headers req;
                             qr_Queries := q :: rest' |})).
Proof.
  split.
  - rewrite QueryData_path. split.
    + intros H. rewrite H. reflexivity.
    + destruct (qr_Queries req) as [|q rest]; [reflexivity|].
      destruct (json_Unmarshal (dq_JSON q)) as [model [e|]];
        [discriminate|].
      repeat match goal with
             | |- context [if ?b then _ else _] => destruct b
             end; discriminate.
  - intros q rest rest' pluginCtx Hq. rewrite !QueryData_path.
    rewrite Hq. reflexivity.
Qed.

End QueryProperties.

Lemma QueryData_routing_witness :
  QueryData Fixture.unmarshal Fixture.getHTTPHeader
    (Fixture.ds "us-east-1" "none") Fixture.alertRequest =
  ReturnsResultOf
    (executeSyncLogQuery (Fixture.ds "us-east-1" "none") Fixture.alertRequest).
Proof.
  destruct (QueryData_routing Fixture.unmarshal Fixture.getHTTPHeader
              (Fixture.ds "us-east-1" "none") Fixture.alertRequest
              {| dq_RefID := "A"; dq_JSON := Fixture.logsQueryJSON |} []
              Fixture.logsQueryModel eq_refl eq_refl)
    as (_ & _ & _ & _ & _ & H).
  apply H.
  - exists "true". reflexivity.
  - reflexivity.
Defined.

Lemma handlerCalls_app (tr tr' : World) :
  handlerCalls (tr ++ tr') = (handlerCalls tr + handlerCalls tr')%nat.
Proof.
  induction tr as [|e tr IH]; [reflexivity|].
  destruct e; simpl; rewrite IH; reflexivity.
Qed.

Section AdapterProperties.

Variable ParseForm : Request -> option error.
Variable URL_Query : Request -> gmap string (list string).
Variable Write_answer : World -> string -> option error.
Variable json_Marshal_suggestData : list suggestData -> string * option error.

Lemma writeResponse_written (code : Z) (msg : string) (logger : Logger)
    (w : World) :
  writeResponse Write_answer code msg logger w =
  (tt, written Write_answer code msg w).
Proof.
  unfold writeResponse, written. run.
  destruct (Write_answer (w ++ [EvWriteHeader code]) msg); simpl;
    rewrite <- !app_assoc; reflexivity.
Qed.

Lemma written_handlerCalls (code : Z) (body : string) (w : World) :
  handlerCalls (written Write_answer code body w) = handlerCalls w.
Proof.
  unfold written. rewrite handlerCalls_app. simpl.
  destruct (Write_answer _ _); simpl; lia.
Qed.

(** The four ways the simple adapter ends. *)
Lemma handleResourceReq_cases (handleFunc : handleFn) (logger : Logger)
    (req : Request) (w : World) :
  (handleResourceReq ParseForm URL_Query Write_answer json_Marshal_suggestData
     handleFunc logger req w).2 =
  match ParseForm req with
  | Some err =>
    written Write_answer http_StatusBadRequest
      ("unexpected error " +:+ Error err) w
  | None =>
    let h := handleFunc (URL_Query req) w in
    match h.1.2 with
    | Some err =>
      written Write_answer http_StatusBadRequest
        ("unexpected error " +:+ Error err) h.2
    | None =>
      let m := json_Marshal_suggestData h.1.1 in
      match m.2 with
      | Some err =>
        written Write_answer http_StatusBadRequest
          ("unexpected error " +:+ Error err) h.2
      | None => written Write_answer http_StatusOK m.1 h.2
      end
    end
  end.
Proof.
  unfold handleResourceReq.
  destruct (ParseForm req) as [e|].
  { rewrite writeResponse_written. reflexivity. }
  unfold bind at 1.
  destruct (handleFunc (URL_Query req) w) as [[data [e|]] w1]; simpl.
  { rewrite writeResponse_written. reflexivity. }
  destruct (json_Marshal_suggestData data) as [body [e|]]; simpl.
  { rewrite writeResponse_written. reflexivity. }
  unfold written. run.
  destruct (Write_answer (w1 ++ [EvWriteHeader http_StatusOK]) body); simpl;
    rewrite <- !app_assoc; reflexivity.
Qed.

Local Abbreviation handleResourceReq :=
  (handleResourceReq ParseForm URL_Query Write_answer json_Marshal_suggestData).
Local Abbreviation written := (written Write_answer).

(** C9. The simple adapter answers 400 with the text of the error when
    parsing the form fails, when the wrapped handler returns an error and
    when the suggestions cannot be marshalled; a parse failure is answered
    in the trace the request came in with, so the handler has not run
    (one that counts its runs stays at its count); otherwise the adapter
    answers 200 with the JSON encoding of the suggestions. *)
Theorem handleResourceReq_responses (handleFunc : handleFn) (logger : Logger)
    (req : Request) (w : World) :
  let r := handleResourceReq handleFunc logger req w in
  (forall err, ParseForm req = Some err ->
     r.2 = written 400 ("unexpected error " +:+ Error err) w /\
     handlerCalls (handleResourceReq (observed handleFunc) logger req w).2 =
     handlerCalls w) /\
  (ParseForm req = None ->
   let h := handleFunc (URL_Query req) w in
   (forall err, h.1.2 = Some err ->
      r.2 = written 400 ("unexpected error " +:+ Error err) h.2) /\
   (h.1.2 = None ->
    let m := json_Marshal_suggestData h.1.1 in
    (forall err, m.2 = Some err ->
       r.2 = written 400 ("unexpected error " +:+ Error err) h.2) /\
    (m.2 = None -> r.2 = written 200 m.1 h.2))).
Proof.
  intros r. subst r. rewrite !handleResourceReq_cases. split.
  - intros err Hp. rewrite Hp. split; [reflexivity|].
    apply written_handlerCalls.
  - intros Hp. rewrite Hp. simpl. split.
    + intros err Hh. rewrite Hh. reflexivity.
    + intros Hh. rewrite Hh. split.
      * intros err Hm. rewrite Hm. reflexivity.
      * intros Hm. rewrite Hm. reflexivity.
Qed.

End AdapterProperties.

Lemma factoryCalls_app (tr tr' : World) :
  factoryCalls (tr ++ tr') = factoryCalls tr ++ factoryCalls tr'.
Proof.
  induction tr as [|e tr IH]; [reflexivity|].
  destruct e; simpl; rewrite IH; reflexivity.
Qed.

Section RouteProperties.

Variable ErrAccessDeniedException : error.
Variable NewAccountsService : option OAMClient -> AccountsProvider.
Variable GetDimensionValuesRequest :
  gmap string (list string) -> DimensionValuesRequest * option error.
Variable newListMetricsService :
  RequestContextFactoryFunc -> string -> M (result ListMetricsProvider).
Variable json_Marshal_accounts : list Account -> string * option error.
Variable json_Marshal_values : list string -> string * option error.
Variable json_quote : string -> string.
Variable im_Get : World -> PluginContext -> result DataSource.

(** Without a region the accounts handler returns at once. *)
Lemma AccountsHandler_no_region (reqCtxFactory : RequestContextFactoryFunc)
    (parameters : gmap string (list string)) (w : World) :
  url_Get parameters "region" = "" ->
  AccountsHandler ErrAccessDeniedException NewAccountsService
    json_Marshal_accounts reqCtxFactory parameters w =
  (("", Some (NewHttpError "error in AccountsHandler" http_StatusBadRequest
                (fmt_Errorf "region is required"))), w).
Proof.
  intros H. unfold AccountsHandler. rewrite H. reflexivity.
Qed.

(** With a region, the handler asks the factory for a context of that
    region and the accounts service for the accounts. *)
Lemma AccountsHandler_region (reqCtxFactory : RequestContextFactoryFunc)
    (parameters : gmap string (list string)) (w : World) :
  url_Get parameters "region" <> "" ->
  let c := reqCtxFactory (url_Get parameters "region") w in
  AccountsHandler ErrAccessDeniedException NewAccountsService
    json_Marshal_accounts reqCtxFactory parameters w =
  match c.1.2 with
  | Some err =>
    (("", Some (NewHttpError "error in AccountsHandler"
                  http_StatusInternalServerError err)), c.2)
  | None =>
    let service := NewAccountsService (OAMAPIProvider c.1.1) in
    let a := GetAccountsForCurrentUserOrRole_answer service c.2 in
    let w2 := c.2 ++ [EvProvider "GetAccountsForCurrentUserOrRole" ""] in
    match a.2 with
    | Some err =>
      (("", Some (NewHttpError "error getting accounts for current user or role"
                    (if errors_Is err ErrAccessDeniedException
                     then http_StatusForbidden
                     else http_StatusInternalServerError) err)), w2)
    | None =>
      match (json_Marshal_accounts a.1).2 with
      | Some err =>
        (("", Some (NewHttpError "error in AccountsHandler"
                      http_StatusInternalServerError err)), w2)
      | None => (((json_Marshal_accounts a.1).1, None), w2)
      end
    end
  end.
Proof.
  intros H c. subst c. unfold AccountsHandler, newAccountsService.
  destruct (String.eqb_spec (url_Get parameters "region") "") as [He|_];
    [contradiction|].
  unfold GetAccountsForCurrentUserOrRole. run.
  destruct (reqCtxFactory _ w) as [[ctx [e|]] w1]; simpl; [reflexivity|].
  destruct (GetAccountsForCurrentUserOrRole_answer _ w1) as [accounts [e|]];
    simpl.
  - destruct (errors_Is e ErrAccessDeniedException); reflexivity.
  - destruct (json_Marshal_accounts accounts) as [body [e|]]; reflexivity.
Qed.

Lemma DimensionValuesHandler_cases (reqCtxFactory : RequestContextFactoryFunc)
    (parameters : gmap string (list string)) (w : World) :
  let p := GetDimensionValuesRequest parameters in
  DimensionValuesHandler GetDimensionValuesRequest newListMetricsService
    json_Marshal_values reqCtxFactory parameters w =
  match p.2 with
  | Some err =>
    (("", Some (NewHttpError "error in DimensionValuesHandler"
                  http_StatusBadRequest err)), w)
  | None =>
    let s := newListMetricsService reqCtxFactory (dv_Region p.1) w in
    match s.1 with
    | Failed err =>
      (("", Some (NewHttpError "error in DimensionValuesHandler"
                    http_StatusInternalServerError err)), s.2)
    | Built service =>
      let a := GetDimensionValuesByDimensionFilter_answer service s.2 p.1 in
      let w2 := s.2 ++ [EvProvider "GetDimensionValuesByDimensionFilter"
                          (dv_DimensionKey p.1)] in
      match a.2 with
      | Some err =>
        (("", Some (NewHttpError "error in DimensionValuesHandler"
                      http_StatusInternalServerError err)), w2)
      | None =>
        match (json_Marshal_values a.1).2 with
        | Some err =>
          (("", Some (NewHttpError "error in DimensionValuesHandler"
                        http_StatusInternalServerError err)), w2)
        | None => (((json_Marshal_values a.1).1, None), w2)
        end
      end
    end
  end.
Proof.
  intros p. subst p. unfold DimensionValuesHandler.
  destruct (GetDimensionValuesRequest parameters) as [r [e|]]; simpl;
    [reflexivity|].
  unfold GetDimensionValuesByDimensionFilter. run.
  destruct (newListMetricsService _ _ w) as [[e|service] w1]; simpl;
    [reflexivity|].
  destruct (GetDimensionValuesByDimensionFilter_answer _ w1 r)
    as [values [e|]]; simpl; [reflexivity|].
  destruct (json_Marshal_values values) as [body [e|]]; reflexivity.
Qed.

Lemma ExternalIdHandler_cases (reqCtxBeforeAuth : RequestContextFactoryFunc)
    (parameters : gmap string (list string)) (w : World) :
  let c := reqCtxBeforeAuth "" w in
  ExternalIdHandler json_quote reqCtxBeforeAuth parameters w =
  match c.1.2 with
  | Some err =>
    (("", Some (NewHttpError "error in ExternalIdHandler"
                  http_StatusInternalServerError err)), c.2)
  | None =>
    (("{" +:+ DQ +:+ "externalId" +:+ DQ +:+ ":" +:+
      json_quote (gs_ExternalID (st_GrafanaSettings (Settings c.1.1))) +:+ "}",
      None), c.2)
  end.
Proof.
  intros c. subst c. unfold ExternalIdHandler. run.
  destruct (reqCtxBeforeAuth "" w) as [[ctx [e|]] w1]; reflexivity.
Qed.

Lemma getRequestContextOnlySettings_cases (ds : DataSource)
    (pluginCtx : PluginContext) (region : string) (w : World) :
  getRequestContextOnlySettings im_Get ds pluginCtx region w =
  (match im_Get w pluginCtx with
   | Failed err => (RequestContext_zero, Some err)
   | Built instance =>
     ({| OAMAPIProvider := None; MetricsClientProvider := None;
         LogsAPIProvider := None; EC2APIProvider := None;
         Settings := ds_Settings instance;
         rc_Logger := Some (FromContext (ds_logger ds)) |}, None)
   end, w ++ [EvInstanceGet pluginCtx]).
Proof.
  unfold getRequestContextOnlySettings, getInstance. run.
  destruct (im_Get w pluginCtx); reflexivity.
Qed.

Local Abbreviation AccountsHandler :=
  (AccountsHandler ErrAccessDeniedException NewAccountsService
     json_Marshal_accounts).
Local Abbreviation DimensionValuesHandler :=
  (DimensionValuesHandler GetDimensionValuesRequest newListMetricsService
     json_Marshal_values).
Local Abbreviation ExternalIdHandler := (ExternalIdHandler json_quote).
Local Abbreviation getRequestContextOnlySettings :=
  (getRequestContextOnlySettings im_Get).

(** C3. The accounts handler, for every factory and every trace.  Without
    a region parameter it returns the 400 error whose cause reads
    [region is required] in the trace it was called in: the factory is
    not invoked (a counted factory keeps its count).  With a region and a
    context from the factory: a provider failure that is the access-denied
    error gives 403 and every other provider failure 500; when the
    provider succeeds, the payload is the JSON encoding of the very list
    the provider returned, written with status 200. *)
Theorem AccountsHandler_responses (reqCtxFactory : RequestContextFactoryFunc)
    (parameters : gmap string (list string)) (w : World) :
  let r := AccountsHandler reqCtxFactory parameters w in
  (parameters !! "region" = None ->
   r = (("", Some (NewHttpError "error in AccountsHandler" 400
                     (fmt_Errorf "region is required"))), w) /\
   (middlewareResponse r.1).1 = http_StatusBadRequest /\
   factoryCalls (AccountsHandler (counted reqCtxFactory) parameters w).2 =
   factoryCalls w) /\
  (url_Get parameters "region" <> "" ->
   let c := reqCtxFactory (url_Get parameters "region") w in
   c.1.2 = None ->
   let service := NewAccountsService (OAMAPIProvider c.1.1) in
   let a := GetAccountsForCurrentUserOrRole_answer service c.2 in
   r.2 = c.2 ++ [EvProvider "GetAccountsForCurrentUserOrRole" ""] /\
   (forall err, a.2 = Some err ->
      errors_Is err ErrAccessDeniedException = true ->
      (middlewareResponse r.1).1 = http_StatusForbidden /\
      r.1.2 = Some (NewHttpError "error getting accounts for current user or role"
                      403 err)) /\
   (forall err, a.2 = Some err ->
      errors_Is err ErrAccessDeniedException = false ->
      (middlewareResponse r.1).1 = http_StatusInternalServerError /\
      r.1.2 = Some (NewHttpError "error getting accounts for current user or role"
                      500 err)) /\
   (a.2 = None -> forall body, json_Marshal_accounts a.1 = (body, None) ->
      r.1 = (body, None) /\
      middlewareResponse r.1 = (http_StatusOK, RawPayload body))).
Proof.
  intros r. subst r. split.
  - intros Hnone.
    assert (Hget : url_Get parameters "region" = "").
    { unfold url_Get. rewrite Hnone. reflexivity. }
    rewrite !AccountsHandler_no_region by assumption.
    repeat split.
  - intros Hregion c Hc service a. subst service a.
    rewrite AccountsHandler_region by assumption. fold c. rewrite Hc.
    cbv zeta.
    destruct (GetAccountsForCurrentUserOrRole_answer _ c.2)
      as [accounts [e|]] eqn:Ha; simpl.
    + split; [reflexivity|]. split; [|split].
      * intros err He Hd. inversion He; subst. rewrite Hd. split; reflexivity.
      * intros err He Hd. inversion He; subst. rewrite Hd. split; reflexivity.
      * discriminate.
    + split; [destruct (json_Marshal_accounts accounts).2; reflexivity|].
      split; [intros err; discriminate|].
      split; [intros err; discriminate|].
      intros _ body Hm. rewrite Hm. simpl. split; reflexivity.
Qed.

(** C7. The dimension values handler, for every factory and every trace.
    A filter that does not parse gives the 400 error carrying the parse
    error, in the trace the handler was called in: no service and no
    client has been built.  A failure to build the service, a failure of
    the provider and a failure to marshal each give 500.  Otherwise the
    payload is the JSON encoding of the list the provider returned,
    written with status 200. *)
Theorem DimensionValuesHandler_responses
    (reqCtxFactory : RequestContextFactoryFunc)
    (parameters : gmap string (list string)) (w : World) :
  let p := GetDimensionValuesRequest parameters in
  let r := DimensionValuesHandler reqCtxFactory parameters w in
  (forall err, p.2 = Some err ->
     r = (("", Some (NewHttpError "error in DimensionValuesHandler" 400 err)), w) /\
     (middlewareResponse r.1).1 = http_StatusBadRequest /\
     factoryCalls (DimensionValuesHandler (counted reqCtxFactory) parameters w).2 =
     factoryCalls w) /\
  (p.2 = None ->
   let s := newListMetricsService reqCtxFactory (dv_Region p.1) w in
   (forall err, s.1 = Failed err ->
      r.2 = s.2 /\ (middlewareResponse r.1).1 = http_StatusInternalServerError) /\
   (forall service, s.1 = Built service ->
      let a := GetDimensionValuesByDimensionFilter_answer service s.2 p.1 in
      r.2 = s.2 ++ [EvProvider "GetDimensionValuesByDimensionFilter"
                      (dv_DimensionKey p.1)] /\
      (forall err, a.2 = Some err -> (middlewareResponse r.1).1 = http_StatusInternalServerError) /\
      (a.2 = None ->
       (forall err, (json_Marshal_values a.1).2 = Some err ->
          (middlewareResponse r.1).1 = http_StatusInternalServerError) /\
       (forall body, json_Marshal_values a.1 = (body, None) ->
          r.1 = (body, None) /\
          middlewareResponse r.1 = (http_StatusOK, RawPayload body))))).
Proof.
  intros p r. subst r. rewrite !DimensionValuesHandler_cases. fold p. split.
  - intros err Hp. rewrite Hp. repeat split.
  - intros Hp. rewrite Hp. cbv zeta.
    destruct (newListMetricsService reqCtxFactory (dv_Region p.1) w)
      as [[e|service] w1]; simpl.
    { split; [intros err _; split; reflexivity | intros sv; discriminate]. }
    split; [intros err; discriminate|].
    intros sv Hs. inversion Hs; subst sv; clear Hs.
    split; [destruct (GetDimensionValuesByDimensionFilter_answer service w1 p.1).2;
            [|destruct (json_Marshal_values _).2]; reflexivity|].
    set (a := GetDimensionValuesByDimensionFilter_answer service w1 p.1).
    destruct a.2 as [e|] eqn:Ha.
    + split; [reflexivity | discriminate].
    + destruct (json_Marshal_values a.1) as [body [e|]] eqn:Hm; simpl.
      * split; [discriminate|]. intros _.
        split; [reflexivity | discriminate].
      * split; [discriminate|]. intros _.
        split; [discriminate|].
        intros body' Hb. inversion Hb; subst. split; reflexivity.
Qed.

(** C4. The settings-only builder returns, whatever the instance manager
    answers, a context whose four clients are nil, after asking for the
    instance and nothing else: no configuration is resolved.  With an
    instance, the context carries the settings of the instance and the
    logger, without error.  The external-id handler returns, for every
    factory that gives it a context (also one with no client in it), the
    JSON object of the external id found in the settings of that context,
    written with status 200; so it does on the settings-only builder
    whenever there is an instance. *)
Theorem getRequestContextOnlySettings_external_id (ds : DataSource)
    (pluginCtx : PluginContext) (region : string)
    (parameters : gmap string (list string)) (w : World) :
  let r := getRequestContextOnlySettings ds pluginCtx region w in
  (OAMAPIProvider r.1.1 = None /\ MetricsClientProvider r.1.1 = None /\
   LogsAPIProvider r.1.1 = None /\ EC2APIProvider r.1.1 = None) /\
  (r.2 = w ++ [EvInstanceGet pluginCtx] /\
   resolvedRegions r.2 = resolvedRegions w) /\
  (forall instance : DataSource, im_Get w pluginCtx = Built instance ->
     r.1.2 = None /\ Settings r.1.1 = ds_Settings instance /\
     rc_Logger r.1.1 = Some (FromContext (ds_logger ds))) /\
  (forall (factory : RequestContextFactoryFunc) (ctx : RequestContext)
          (w1 : World),
     factory "" w = ((ctx, None), w1) ->
     let h := ExternalIdHandler factory parameters w in
     h.2 = w1 /\
     middlewareResponse h.1 =
     (http_StatusOK, RawPayload
             ("{" +:+ DQ +:+ "externalId" +:+ DQ +:+ ":" +:+
              json_quote (gs_ExternalID (st_GrafanaSettings (Settings ctx)))
              +:+ "}"))) /\
  (forall instance : DataSource, im_Get w pluginCtx = Built instance ->
     let h := ExternalIdHandler (getRequestContextOnlySettings ds pluginCtx)
                parameters w in
     h.2 = w ++ [EvInstanceGet pluginCtx] /\
     middlewareResponse h.1 =
     (http_StatusOK, RawPayload
             ("{" +:+ DQ +:+ "externalId" +:+ DQ +:+ ":" +:+
              json_quote (gs_ExternalID (st_GrafanaSettings (ds_Settings instance)))
              +:+ "}"))).
Proof.
  intros r. subst r. rewrite getRequestContextOnlySettings_cases. simpl.
  split; [|split; [|split; [|split]]].
  - destruct (im_Get w pluginCtx); simpl; repeat split.
  - split; [reflexivity|]. rewrite resolvedRegions_app. simpl.
    apply app_nil_r.
  - intros instance Him. rewrite Him. simpl. repeat split.
  - intros factory ctx w1 Hf.
    rewrite ExternalIdHandler_cases. rewrite Hf. simpl. split; reflexivity.
  - intros instance Him.
    rewrite ExternalIdHandler_cases, getRequestContextOnlySettings_cases.
    rewrite Him. simpl. split; reflexivity.
Qed.

End RouteProperties.

(** * Runs on the example instance *)

Example getRequestContext_without_instance :
  getRequestContext Fixture.ErrMissingRegion Fixture.noInstance
    (Fixture.ds "us-east-1" "none") Fixture.pluginCtx "eu-west-1" [] =
  ((RequestContext_zero, Some (fmt_Errorf "instance disposed")),
   [EvInstanceGet Fixture.pluginCtx]).
Proof. reflexivity. Qed.

Example getRequestContext_target_fails :
  let r := getRequestContext Fixture.ErrMissingRegion
             (Fixture.im "us-east-1" "eu-west-1")
             (Fixture.ds "us-east-1" "eu-west-1") Fixture.pluginCtx
             "eu-west-1" [] in
  r.1 = (RequestContext_zero, Some (fmt_Errorf "no credentials")) /\
  resolvedRegions r.2 = ["us-east-1"; "eu-west-1"].
Proof. split; reflexivity. Qed.

Example getRequestContext_without_home_region :
  getRequestContext Fixture.ErrMissingRegion (Fixture.im "" "none")
    (Fixture.ds "" "none") Fixture.pluginCtx defaultRegion [] =
  ((RequestContext_zero, Some Fixture.ErrMissingRegion),
   [EvInstanceGet Fixture.pluginCtx]).
Proof. reflexivity. Qed.

Example AccountsHandler_two_accounts :
  let r := AccountsHandler Fixture.ErrAccessDeniedException
             Fixture.accountsService Fixture.marshalAccounts
             Fixture.countedFactory {[ "region" := ["us-east-1"] ]} [] in
  middlewareResponse r.1 =
  (http_StatusOK, RawPayload (Fixture.marshalAccounts Fixture.twoAccounts).1) /\
  factoryCalls r.2 = ["us-east-1"] /\
  resolvedRegions r.2 = ["us-east-1"; "us-east-1"].
Proof. vm_compute. repeat split. Qed.

Example AccountsHandler_throttled :
  let r := AccountsHandler Fixture.ErrAccessDeniedException
             Fixture.throttledService Fixture.marshalAccounts
             Fixture.countedFactory {[ "region" := ["us-east-1"] ]} [] in
  (middlewareResponse r.1).1 = http_StatusInternalServerError.
Proof. vm_compute. reflexivity. Qed.

Example handleResourceReq_volumes :
  (handleResourceReq Fixture.parseForm Fixture.query Fixture.writes
     Fixture.marshalSuggestions (observed Fixture.volumes)
     {| lg_name := "resource" |}
     {| rq_Method := "GET"; rq_RawQuery := "region=us-east-1"; rq_Body := "" |}
     []).2 =
  [EvHandler; EvWriteHeader 200;
   EvWrite ("[{" +:+ Fixture.quoted "text" +:+ ":" +:+ Fixture.quoted "vol-1"
            +:+ "," +:+ Fixture.quoted "value" +:+ ":" +:+
            Fixture.quoted "vol-1" +:+ "}]")].
Proof. vm_compute. reflexivity. Qed.

Example handleResourceReq_handler_error :
  (handleResourceReq Fixture.parseForm Fixture.query Fixture.writes
     Fixture.marshalSuggestions (observed Fixture.volumes)
     {| lg_name := "resource" |}
     {| rq_Method := "GET"; rq_RawQuery := ""; rq_Body := "" |} []).2 =
  [EvHandler; EvWriteHeader 400; EvWrite "unexpected error region is required"].
Proof. vm_compute. reflexivity. Qed.

Example errors_Is_wrapped :
  errors_Is (fmt_Errorf_w "access denied: not authorized to list links"
               Fixture.ErrAccessDeniedException)
    Fixture.ErrAccessDeniedException = true /\
  errors_Is (fmt_Errorf "access denied") Fixture.ErrAccessDeniedException = false.
Proof. split; reflexivity. Qed.

(** * The properties at work on the example instance *)

(** A home region that does not resolve: the build stops after the one
    resolution for us-east-1, and eu-west-1 is never asked for. *)
Lemma getRequestContext_all_or_nothing_witness :
  let r := getRequestContext Fixture.ErrMissingRegion
             (Fixture.im "us-east-1" "us-east-1")
             (Fixture.ds "us-east-1" "us-east-1") Fixture.pluginCtx
             "eu-west-1" [] in
  r.1 = (RequestContext_zero, Some (fmt_Errorf "no credentials")) /\
  resolvedRegions r.2 = ["us-east-1"].
Proof.
  destruct (getRequestContext_all_or_nothing Fixture.ErrMissingRegion
              (Fixture.im "us-east-1" "us-east-1")
              (Fixture.ds "us-east-1" "us-east-1") Fixture.pluginCtx
              "eu-west-1" []) as (_ & _ & H).
  destruct (H (Fixture.ds "us-east-1" "us-east-1") eq_refl) as [Hd _].
  destruct (Hd (fmt_Errorf "no credentials") eq_refl) as [Hr _].
  rewrite Hr. split; reflexivity.
Defined.

Lemma newAWSConfig_default_resolves_home_region_witness :
  resolvedRegions
    (newAWSConfig Fixture.ErrMissingRegion (Fixture.ds "us-east-1" "none")
       defaultRegion []).2 = ["us-east-1"].
Proof.
  destruct (newAWSConfig_default_resolves_home_region Fixture.ErrMissingRegion
              (Fixture.im "us-east-1" "none") (Fixture.ds "us-east-1" "none")
              Fixture.pluginCtx []) as (_ & H & _).
  destruct H as [_ H]; [discriminate|]. exact H.
Defined.


Lemma QueryData_first_query_only_witness :
  pathOf (QueryData Fixture.unmarshal Fixture.getHTTPHeader
            (Fixture.ds "us-east-1" "none")
            {| qr_PluginContext := Fixture.pluginCtx;
               qr_Headers := {[ "FromAlert" := "true" ]};
               qr_Queries := [] |}) = PathPanic /\
  pathOf (QueryData Fixture.unmarshal Fixture.getHTTPHeader
            (Fixture.ds "us-east-1" "none")
            {| qr_PluginContext := Fixture.pluginCtx;
               qr_Headers := {[ "FromAlert" := "true" ]};
               qr_Queries := [ {| dq_RefID := "A";
                                  dq_JSON := Fixture.logsQueryJSON |};
                               {| dq_RefID := "B"; dq_JSON := "{}" |} ] |}) =
  PathSyncLog.
Proof.
  split.
  - apply (QueryData_first_query_only Fixture.unmarshal Fixture.getHTTPHeader).
    reflexivity.
  - destruct (QueryData_first_query_only Fixture.unmarshal
                Fixture.getHTTPHeader (Fixture.ds "us-east-1" "none")
                Fixture.alertRequest) as [_ H].
    transitivity (pathOf (QueryData Fixture.unmarshal Fixture.getHTTPHeader
                            (Fixture.ds "us-east-1" "none")
                            Fixture.alertRequest)); [|reflexivity].
    symmetry.
    exact (H {| dq_RefID := "A"; dq_JSON := Fixture.logsQueryJSON |} []
             [ {| dq_RefID := "B"; dq_JSON := "{}" |} ]
             Fixture.pluginCtx eq_refl).
Defined.

(** A query that is no form: 400, and the handler has not run. *)
Lemma handleResourceReq_responses_witness :
  let req := {| rq_Method := "GET"; rq_RawQuery := "region=%zz";
                rq_Body := "" |} in
  let r := handleResourceReq Fixture.parseForm Fixture.query Fixture.writes
             Fixture.marshalSuggestions (observed Fixture.volumes)
             {| lg_name := "resource" |} req [] in
  r.2 = [EvWriteHeader 400; EvWrite "unexpected error invalid URL escape"] /\
  handlerCalls r.2 = 0%nat.
Proof.
  intros req r.
  destruct (handleResourceReq_responses Fixture.parseForm Fixture.query
              Fixture.writes Fixture.marshalSuggestions
              (observed Fixture.volumes) {| lg_name := "resource" |} req [])
    as [H _].
  destruct (H (fmt_Errorf "invalid URL escape") eq_refl) as [Hr _].
  subst r. rewrite Hr. split; reflexivity.
Defined.

(** No region: 400 and the counted factory was not called.  Access
    denied by the provider: 403. *)
Lemma AccountsHandler_responses_witness :
  let r := AccountsHandler Fixture.ErrAccessDeniedException
             Fixture.deniedService Fixture.marshalAccounts
             Fixture.countedFactory ∅ [] in
  let r' := AccountsHandler Fixture.ErrAccessDeniedException
              Fixture.deniedService Fixture.marshalAccounts
              Fixture.countedFactory {[ "region" := ["eu-west-1"] ]} [] in
  ((middlewareResponse r.1).1 = http_StatusBadRequest /\ r.2 = []) /\
  ((middlewareResponse r'.1).1 = http_StatusForbidden /\
   factoryCalls r'.2 = ["eu-west-1"]).
Proof.
  intros r r'. split.
  - destruct (AccountsHandler_responses Fixture.ErrAccessDeniedException
                Fixture.deniedService Fixture.marshalAccounts
                Fixture.countedFactory ∅ []) as [H _].
    destruct (H eq_refl) as (Hr & Hs & _). subst r. rewrite Hr.
    split; reflexivity.
  - destruct (AccountsHandler_responses Fixture.ErrAccessDeniedException
                Fixture.deniedService Fixture.marshalAccounts
                Fixture.countedFactory {[ "region" := ["eu-west-1"] ]} [])
      as [_ H].
    assert (Hne : url_Get ({[ "region" := ["eu-west-1"] ]}
                           : gmap string (list string)) "region" <> "")
      by (vm_compute; discriminate).
    destruct (H Hne eq_refl) as (Hw & Hd & _).
    split.
    + apply (Hd (fmt_Errorf_w "access denied: not authorized to list links"
                   Fixture.ErrAccessDeniedException)); reflexivity.
    + subst r'. rewrite Hw. vm_compute. reflexivity.
Defined.

(** No dimension key: 400 before anything is built.  A valid request:
    200 with the two values of the provider. *)
Lemma DimensionValuesHandler_responses_witness :
  let r := DimensionValuesHandler Fixture.parseDimensionValues
             Fixture.listMetricsService Fixture.marshalValues
             Fixture.countedFactory {[ "region" := ["eu-west-1"] ]} [] in
  let r' := DimensionValuesHandler Fixture.parseDimensionValues
              Fixture.listMetricsService Fixture.marshalValues
              Fixture.countedFactory
              {[ "region" := ["eu-west-1"];
                 "dimensionKey" := ["AvailabilityZone"] ]} [] in
  ((middlewareResponse r.1).1 = http_StatusBadRequest /\ r.2 = []) /\
  middlewareResponse r'.1 =
  (http_StatusOK,
   RawPayload ("[" +:+ Fixture.quoted "us-east-1a" +:+ "," +:+
               Fixture.quoted "us-east-1b" +:+ "]")).
Proof.
  intros r r'. split.
  - destruct (DimensionValuesHandler_responses Fixture.parseDimensionValues
                Fixture.listMetricsService Fixture.marshalValues
                Fixture.countedFactory {[ "region" := ["eu-west-1"] ]} [])
      as [H _].
    destruct (H (fmt_Errorf "error in unmarshaling dimensionFilters") eq_refl)
      as (Hr & Hs & _).
    subst r. rewrite Hr. split; reflexivity.
  - destruct (DimensionValuesHandler_responses Fixture.parseDimensionValues
                Fixture.listMetricsService Fixture.marshalValues
                Fixture.countedFactory
                {[ "region" := ["eu-west-1"];
                   "dimensionKey" := ["AvailabilityZone"] ]} [])
      as [_ H].
    destruct (H eq_refl) as [_ Hb].
    destruct (Hb Fixture.zoneService eq_refl) as (_ & _ & Hok).
    destruct (Hok eq_refl) as [_ Hbody].
    apply (Hbody _ eq_refl).
Defined.

(** The external id of the instance, with no client in the context and
    no configuration resolved. *)
Lemma getRequestContextOnlySettings_external_id_witness :
  let h := ExternalIdHandler Fixture.quoted
             (getRequestContextOnlySettings (Fixture.im "us-east-1" "us-east-1")
                (Fixture.ds "us-east-1" "us-east-1") Fixture.pluginCtx)
             ∅ [] in
  h.2 = [EvInstanceGet Fixture.pluginCtx] /\
  middlewareResponse h.1 =
  (http_StatusOK,
   RawPayload ("{" +:+ Fixture.quoted "externalId" +:+ ":" +:+
               Fixture.quoted "ext-123" +:+ "}")).
Proof.
  destruct (getRequestContextOnlySettings_external_id Fixture.quoted
              (Fixture.im "us-east-1" "us-east-1")
              (Fixture.ds "us-east-1" "us-east-1") Fixture.pluginCtx
              "" ∅ []) as (_ & _ & _ & _ & H).
  exact (H (Fixture.ds "us-east-1" "us-east-1") eq_refl).
Defined.

(** * Further properties of cloudwatch.go *)

Section ConfigProperties.

Variable ErrMissingRegion : error.
Variable im_Get : World -> PluginContext -> result DataSource.

Lemma getAWSConfig_cases (ds : DataSource) (pluginCtx : PluginContext)
    (region : string) (w : World) :
  getAWSConfig ErrMissingRegion im_Get ds pluginCtx region w =
  match im_Get w pluginCtx with
  | Failed err => ((aws_Config_zero, Some err), w ++ [EvInstanceGet pluginCtx])
  | Built instance =>
    newAWSConfig ErrMissingRegion instance region
      (w ++ [EvInstanceGet pluginCtx])
  end.
Proof.
  unfold getAWSConfig, getInstance. run.
  destruct (im_Get w pluginCtx); reflexivity.
Qed.

Lemma getCWClient_cases (ds : DataSource) (pluginCtx : PluginContext)
    (region : string) (w : World) :
  let c := getAWSConfig ErrMissingRegion im_Get ds pluginCtx region w in
  getCWClient ErrMissingRegion im_Get ds pluginCtx region w =
  (match c.1.2 with
   | Some err => Failed err
   | None => Built (NewCWClient c.1.1)
   end, c.2).
Proof.
  intros c. subst c. unfold getCWClient. run.
  destruct (getAWSConfig _ _ _ _ _ w) as [[cfg [e|]] w1]; reflexivity.
Qed.

Lemma getCWLogsClient_cases (ds : DataSource) (pluginCtx : PluginContext)
    (region : string) (w : World) :
  let c := getAWSConfig ErrMissingRegion im_Get ds pluginCtx region w in
  getCWLogsClient ErrMissingRegion im_Get ds pluginCtx region w =
  (match c.1.2 with
   | Some err => Failed err
   | None => Built (NewCWLogsClient c.1.1)
   end, c.2).
Proof.
  intros c. subst c. unfold getCWLogsClient. run.
  destruct (getAWSConfig _ _ _ _ _ w) as [[cfg [e|]] w1]; reflexivity.
Qed.

Lemma getEC2Client_cases (ds : DataSource) (pluginCtx : PluginContext)
    (region : string) (w : World) :
  let c := getAWSConfig ErrMissingRegion im_Get ds pluginCtx region w in
  getEC2Client ErrMissingRegion im_Get ds pluginCtx region w =
  (match c.1.2 with
   | Some err => Failed err
   | None => Built (NewEC2API c.1.1)
   end, c.2).
Proof.
  intros c. subst c. unfold getEC2Client. run.
  destruct (getAWSConfig _ _ _ _ _ w) as [[cfg [e|]] w1]; reflexivity.
Qed.

Lemma getRGTAClient_cases (ds : DataSource) (pluginCtx : PluginContext)
    (region : string) (w : World) :
  let c := getAWSConfig ErrMissingRegion im_Get ds pluginCtx region w in
  getRGTAClient ErrMissingRegion im_Get ds pluginCtx region w =
  (match c.1.2 with
   | Some err => Failed err
   | None => Built (NewRGTAClient c.1.1)
   end, c.2).
Proof.
  intros c. subst c. unfold getRGTAClient. run.
  destruct (getAWSConfig _ _ _ _ _ w) as [[cfg [e|]] w1]; reflexivity.
Qed.

Local Abbreviation newAWSConfig := (newAWSConfig ErrMissingRegion).
Local Abbreviation getAWSConfig := (getAWSConfig ErrMissingRegion im_Get).
Local Abbreviation getRequestContext :=
  (getRequestContext ErrMissingRegion im_Get).
Local Abbreviation getCWClient := (getCWClient ErrMissingRegion im_Get).
Local Abbreviation getCWLogsClient := (getCWLogsClient ErrMissingRegion im_Get).
Local Abbreviation getEC2Client := (getEC2Client ErrMissingRegion im_Get).
Local Abbreviation getRGTAClient := (getRGTAClient ErrMissingRegion im_Get).

(** X1. A region other than the sentinel is resolved as it is given: the
    provider is asked once, for that very region, whatever the home region
    of the instance is, also when the instance has none. *)
Theorem newAWSConfig_explicit_region (ds : DataSource) (region : string)
    (w : World) :
  region <> defaultRegion ->
  let r := newAWSConfig ds region w in
  (exists a, r.2 = w ++ [EvGetConfig a] /\ au_Region a = region /\
             r.1 = resolved (GetConfig_answer (AWSConfigProvider ds) w a)) /\
  resolvedRegions r.2 = resolvedRegions w ++ [region].
Proof.
  intros Hne r. subst r. rewrite newAWSConfig_cases.
  assert (Hd : String.eqb region defaultRegion = false)
    by (apply String.eqb_neq; assumption).
  unfold effectiveRegion. rewrite Hd. simpl. split.
  - eexists. repeat split.
  - rewrite resolvedRegions_app. reflexivity.
Qed.

(** X2. What [newAWSConfig] hands to the provider: the credentials of the
    settings as they are, the external id of the Grafana settings, and the
    proxy options of the data source only when the secure socks proxy is
    enabled both in the Grafana settings and in the data source settings;
    otherwise no proxy options at all. *)
Theorem newAWSConfig_auth_settings (ds : DataSource) (region : string)
    (w : World) (a : awsauth_Settings) :
  In (EvGetConfig a) (drop (length w) (newAWSConfig ds region w).2) ->
  (au_ProxyOptions a =
   if gs_SecureSocksDSProxyEnabled (st_GrafanaSettings (ds_Settings ds))
      && st_SecureSocksProxyEnabled (ds_Settings ds)
   then ds_ProxyOpts ds else None) /\
  (gs_SecureSocksDSProxyEnabled (st_GrafanaSettings (ds_Settings ds)) = false \/
   st_SecureSocksProxyEnabled (ds_Settings ds) = false ->
   au_ProxyOptions a = None) /\
  au_CredentialsProfile a = st_Profile (ds_Settings ds) /\
  au_LegacyAuthType a = st_AuthType (ds_Settings ds) /\
  au_AssumeRoleARN a = st_AssumeRoleARN (ds_Settings ds) /\
  au_ExternalID a = gs_ExternalID (st_GrafanaSettings (ds_Settings ds)) /\
  au_Endpoint a = st_Endpoint (ds_Settings ds) /\
  au_AccessKey a = st_AccessKey (ds_Settings ds) /\
  au_SecretKey a = st_SecretKey (ds_Settings ds).
Proof.
  rewrite newAWSConfig_cases.
  destruct (_ && Nat.eqb _ 0); simpl.
  - rewrite drop_all. intros [].
  - rewrite drop_app_length. intros [H|[]]. inversion H; subst a; clear H.
    simpl. repeat split.
    intros [H|H]; rewrite H; [reflexivity | rewrite andb_false_r; reflexivity].
Qed.

(** X3. [newAWSConfig] asks the provider at most once; an error always
    comes with the zero configuration; and when the provider is not asked
    at all, the error is [ErrMissingRegion], for the sentinel region on an
    instance without home region. *)
Theorem newAWSConfig_at_most_one_resolution (ds : DataSource)
    (region : string) (w : World) :
  let r := newAWSConfig ds region w in
  (forall err, r.1.2 = Some err -> r.1.1 = aws_Config_zero) /\
  (r.2 = w \/ exists a, r.2 = w ++ [EvGetConfig a]) /\
  (r.2 = w <->
   r.1 = (aws_Config_zero, Some ErrMissingRegion) /\ region = defaultRegion /\
   st_Region (ds_Settings ds) = "").
Proof.
  intros r. subst r. rewrite newAWSConfig_cases.
  destruct (String.eqb_spec region defaultRegion) as [Hr|Hr]; simpl.
  - destruct (st_Region (ds_Settings ds)) as [|c home] eqn:Hhome; simpl.
    + split; [intros err _; reflexivity|].
      split; [left; reflexivity|].
      split; [intros _; repeat split; assumption | intros _; reflexivity].
    + split; [|split].
      * intros err. destruct (GetConfig_answer _ _ _) as [cfg [e|]];
          simpl; [reflexivity | discriminate].
      * right. eexists. reflexivity.
      * split.
        -- intros H. apply (f_equal length) in H.
           rewrite length_app in H. simpl in H. lia.
        -- intros (_ & _ & H). discriminate.
  - split; [|split].
    + intros err. destruct (GetConfig_answer _ _ _) as [cfg [e|]];
        simpl; [reflexivity | discriminate].
    + right. eexists. reflexivity.
    + split.
      * intros H. apply (f_equal length) in H.
        rewrite length_app in H. simpl in H. lia.
      * intros (_ & H & _). contradiction.
Qed.

(** X4. The four client getters go through [getAWSConfig] alike: from one
    trace and for one region they fail together, with the error of
    [getAWSConfig] and no client, or succeed together, each client built on
    the configuration [getAWSConfig] resolved; without an instance the
    provider is not asked. *)
Theorem client_getters_agree (ds : DataSource) (pluginCtx : PluginContext)
    (region : string) (w : World) :
  let c := getAWSConfig ds pluginCtx region w in
  (forall err, im_Get w pluginCtx = Failed err ->
     c = ((aws_Config_zero, Some err), w ++ [EvInstanceGet pluginCtx])) /\
  (forall err, c.1.2 = Some err ->
     getCWClient ds pluginCtx region w = (Failed err, c.2) /\
     getCWLogsClient ds pluginCtx region w = (Failed err, c.2) /\
     getEC2Client ds pluginCtx region w = (Failed err, c.2) /\
     getRGTAClient ds pluginCtx region w = (Failed err, c.2)) /\
  (c.1.2 = None ->
     getCWClient ds pluginCtx region w = (Built (NewCWClient c.1.1), c.2) /\
     getCWLogsClient ds pluginCtx region w =
       (Built (NewCWLogsClient c.1.1), c.2) /\
     getEC2Client ds pluginCtx region w = (Built (NewEC2API c.1.1), c.2) /\
     getRGTAClient ds pluginCtx region w = (Built (NewRGTAClient c.1.1), c.2)).
Proof.
  intros c.
  rewrite getCWClient_cases, getCWLogsClient_cases, getEC2Client_cases,
    getRGTAClient_cases.
  fold c. split; [|split].
  - intros err Him. subst c. rewrite getAWSConfig_cases, Him. reflexivity.
  - intros err H. rewrite H. repeat split.
  - intros H. rewrite H. repeat split.
Qed.

(** X5. The compute-instance client of a full request context is the
    client [getEC2Client] returns for the sentinel region from the same
    trace. *)
Theorem getRequestContext_ec2_is_getEC2Client (ds : DataSource)
    (pluginCtx : PluginContext) (region : string) (w : World)
    (ctx : RequestContext) (w' : World) :
  getRequestContext ds pluginCtx region w = ((ctx, None), w') ->
  exists (client : EC2Client),
    (getEC2Client ds pluginCtx defaultRegion w).1 = Built client /\
    EC2APIProvider ctx = Some client.
Proof.
  intros H.
  destruct (im_Get w pluginCtx) as [e|instance] eqn:Him.
  - rewrite (getRequestContext_no_instance _ _ _ _ _ _ _ Him) in H.
    discriminate.
  - rewrite (getRequestContext_cases _ _ ds instance) in H by assumption.
    rewrite getEC2Client_cases, getAWSConfig_cases, Him. simpl in *.
    destruct (newAWSConfig instance defaultRegion _) as [[cfgD [e|]] w1];
      simpl in *; [discriminate|].
    destruct (newAWSConfig instance _ w1) as [[cfgT [e|]] w2];
      simpl in *; [discriminate|].
    inversion H; subst; clear H. eexists. split; reflexivity.
Qed.

(** X6. What does not depend on the requested region: two full contexts
    built from the same trace for two regions have the same
    compute-instance client, the same settings and the same logger. *)
Theorem getRequestContext_region_independent (ds : DataSource)
    (pluginCtx : PluginContext) (region1 region2 : string) (w : World)
    (ctx1 ctx2 : RequestContext) (w1 w2 : World) :
  getRequestContext ds pluginCtx region1 w = ((ctx1, None), w1) ->
  getRequestContext ds pluginCtx region2 w = ((ctx2, None), w2) ->
  EC2APIProvider ctx1 = EC2APIProvider ctx2 /\
  Settings ctx1 = Settings ctx2 /\
  rc_Logger ctx1 = rc_Logger ctx2.
Proof.
  intros H1 H2.
  destruct (im_Get w pluginCtx) as [e|instance] eqn:Him.
  - rewrite (getRequestContext_no_instance _ _ _ _ _ _ _ Him) in H1.
    discriminate.
  - rewrite (getRequestContext_cases _ _ ds instance) in H1, H2 by assumption.
    simpl in *.
    destruct (newAWSConfig instance defaultRegion _) as [[cfgD [e|]] wd];
      simpl in *; [discriminate|].
    destruct (newAWSConfig instance (effectiveRegion instance region1) wd)
      as [[cfgT1 [e|]] wt1]; simpl in *; [discriminate|].
    destruct (newAWSConfig instance (effectiveRegion instance region2) wd)
      as [[cfgT2 [e|]] wt2]; simpl in *; [discriminate|].
    inversion H1; inversion H2; subst. repeat split.
Qed.

(** X7. Building a full request context calls no AWS API: after the one
    instance lookup the trace grows by at most two events, each a
    configuration resolution. *)
Theorem getRequestContext_only_resolves (ds : DataSource)
    (pluginCtx : PluginContext) (region : string) (w : World) :
  exists l : list Event,
    (getRequestContext ds pluginCtx region w).2 =
      w ++ EvInstanceGet pluginCtx :: l /\
    length l <= 2 /\
    Forall (fun e => exists a, e = EvGetConfig a) l.
Proof.
  destruct (im_Get w pluginCtx) as [e|instance] eqn:Him.
  - rewrite (getRequestContext_no_instance _ _ _ _ _ _ _ Him).
    exists []. simpl. repeat split; [lia | constructor].
  - rewrite (getRequestContext_cases _ _ ds instance) by assumption.
    pose proof (newAWSConfig_at_most_one_resolution instance defaultRegion
                  (w ++ [EvInstanceGet pluginCtx])) as (_ & Hd & _).
    simpl in Hd.
    set (d := newAWSConfig instance defaultRegion
                (w ++ [EvInstanceGet pluginCtx])) in *.
    pose proof (newAWSConfig_at_most_one_resolution instance
                  (effectiveRegion instance region) d.2) as (_ & Ht & _).
    simpl in Ht.
    set (t := newAWSConfig instance (effectiveRegion instance region) d.2) in *.
    assert (Hcases : exists l, d.2 = w ++ EvInstanceGet pluginCtx :: l /\
                               length l <= 1 /\
                               Forall (fun e => exists a, e = EvGetConfig a) l).
    { destruct Hd as [Hd|[a Hd]]; rewrite Hd.
      - exists []. simpl. repeat split; [lia | constructor].
      - exists [EvGetConfig a]. rewrite <- app_assoc. simpl.
        repeat split; [lia|]. repeat constructor. eexists. reflexivity. }
    destruct Hcases as (l & Hl & Hlen & Hall).
    destruct d.1.2; simpl.
    + exists l. repeat split; [assumption | lia | assumption].
    + assert (Ht' : exists l', t.2 = w ++ EvInstanceGet pluginCtx :: l' /\
                               length l' <= 2 /\
                               Forall (fun e => exists a, e = EvGetConfig a) l').
      { destruct Ht as [Ht|[a Ht]]; rewrite Ht, Hl.
        - exists l. repeat split; [lia | assumption].
        - exists (l ++ [EvGetConfig a]). rewrite <- app_assoc. simpl.
          repeat split.
          + rewrite length_app. simpl. lia.
          + apply Forall_app. split; [assumption|].
            repeat constructor. eexists. reflexivity. }
      destruct t.1.2; simpl; exact Ht'.
Qed.

End ConfigProperties.

Section HealthEdgeProperties.

Variable ErrMissingRegion : error.
Variable im_Get : World -> PluginContext -> result DataSource.
Variable ListMetricsWithPageLimit_answer :
  World -> MetricsClient -> string -> string -> list string * option error.
Variable DescribeLogGroups_answer :
  World -> LogsClient -> Z -> list string * option error.

(** X8. On an instance without home region the health check reports an
    error in both lines, each with the text of [ErrMissingRegion], after
    two instance lookups and nothing else: the provider is not asked and
    no AWS API is called. *)
Theorem CheckHealth_without_home_region (ds : DataSource)
    (req : CheckHealthRequest) (w : World) (i1 i2 : DataSource) :
  im_Get w (hr_PluginContext req) = Built i1 ->
  st_Region (ds_Settings i1) = "" ->
  im_Get (w ++ [EvInstanceGet (hr_PluginContext req)]) (hr_PluginContext req) =
    Built i2 ->
  st_Region (ds_Settings i2) = "" ->
  CheckHealth ErrMissingRegion im_Get ListMetricsWithPageLimit_answer
    DescribeLogGroups_answer ds req w =
  (({| Status := HealthStatusError;
       Message :=
         "1. CloudWatch metrics query failed: " +:+ Error ErrMissingRegion +:+
         LF +:+
         "2. CloudWatch logs query failed: " +:+ Error ErrMissingRegion |},
    None),
   w ++ [EvInstanceGet (hr_PluginContext req);
         EvInstanceGet (hr_PluginContext req)]).
Proof.
  intros H1 R1 H2 R2.
  rewrite CheckHealth_result. cbv zeta.
  rewrite checkHealthMetrics_cases, H1, newAWSConfig_cases, R1. simpl.
  rewrite checkHealthLogs_cases, H2, newAWSConfig_cases, R2. simpl.
  rewrite <- app_assoc. reflexivity.
Qed.

End HealthEdgeProperties.

(** X9. A log query has terminated exactly when its status is Complete,
    Cancelled, Failed or Timeout: a query that is scheduled or running,
    one of unknown status and one with no status or with a status the SDK
    does not know have not. *)
Theorem isTerminated_iff (queryStatus : string) :
  (isTerminated queryStatus = true <->
   queryStatus = QueryStatusComplete \/ queryStatus = QueryStatusCancelled \/
   queryStatus = QueryStatusFailed \/ queryStatus = QueryStatusTimeout) /\
  isTerminated QueryStatusScheduled = false /\
  isTerminated QueryStatusRunning = false /\
  isTerminated QueryStatusUnknown = false /\
  isTerminated "" = false /\
  isTerminated "complete" = false.
Proof.
  split; [|repeat split].
  unfold isTerminated, terminatedStates. simpl.
  destruct (String.eqb_spec queryStatus QueryStatusComplete);
    destruct (String.eqb_spec queryStatus QueryStatusCancelled);
    destruct (String.eqb_spec queryStatus QueryStatusFailed);
    destruct (String.eqb_spec queryStatus QueryStatusTimeout);
    simpl; split; try tauto; try discriminate.
Qed.

(** X10. The contextual attributes [instrumentContext] attaches are
    well-formed key-values with distinct keys: always the endpoint and the
    plugin id, then the name and the UID of the data source when the
    plugin context has instance settings, then the login when it has a
    user. *)
Theorem instrumentContext_attributes (endpoint : string)
    (pCtx : InstrumentedPluginContext) :
  let p := instrumentContext endpoint pCtx in
  length p = (2 * length (keyValues p))%nat /\
  NoDup (keyValues p).*1 /\
  keyValues p =
    [("endpoint", endpoint); ("pluginId", ipc_PluginID pCtx)] ++
    match ipc_DataSourceInstanceSettings pCtx with
    | Some settings =>
      [("dsName", dsi_Name settings); ("dsUID", dsi_UID settings)]
    | None => []
    end ++
    match ipc_User pCtx with
    | Some user => [("uname", usr_Login user)]
    | None => []
    end.
Proof.
  unfold instrumentContext.
  destruct (ipc_DataSourceInstanceSettings pCtx) as [settings|];
    destruct (ipc_User pCtx) as [user|]; simpl;
    (split; [reflexivity|]); (split; [|reflexivity]);
    repeat (apply NoDup_cons_2;
            [rewrite ?elem_of_cons, elem_of_nil; intuition discriminate|]);
    apply NoDup_nil_2.
Qed.

(** X11. Building the resource mux does not panic: the thirteen patterns
    are registered once each.  The settings-only factory is given to the
    external-id handler and to no other, all other route handlers get the
    full factory, and the four legacy paths are the ones served through
    [handleResourceReq]. *)
Theorem newResourceMux_routes :
  exists mux : ServeMux,
    newResourceMux = Some mux /\ NoDup mux.*1 /\ length mux = 13%nat /\
    (forall path h f,
       mux_Handler mux path = Some (viaResourceRequestMiddleware h f) ->
       (f = ds_getRequestContextOnlySettings <-> path = "/external-id") /\
       (f = ds_getRequestContextOnlySettings <-> h = routes.ExternalIdHandler)) /\
    (forall path h,
       mux_Handler mux path = Some (viaHandleResourceReq h) <->
       (path, h) ∈ [ ("/ebs-volume-ids", handleGetEbsVolumeIds);
                     ("/ec2-instance-attribute", handleGetEc2InstanceAttribute);
                     ("/resource-arns", handleGetResourceArns);
                     ("/legacy-log-groups", handleGetLogGroups) ]) /\
    mux_Handler mux "/external-id" =
      Some (viaResourceRequestMiddleware routes.ExternalIdHandler
              ds_getRequestContextOnlySettings) /\
    mux_Handler mux "/accounts" =
      Some (viaResourceRequestMiddleware routes.AccountsHandler
              ds_getRequestContext) /\
    mux_Handler mux "/external-id/" = None.
Proof.
  eexists. split; [vm_compute; reflexivity|].
  split.
  { simpl. repeat (apply NoDup_cons_2;
                   [rewrite ?elem_of_cons, elem_of_nil; intuition discriminate|]).
    apply NoDup_nil_2. }
  split; [reflexivity|].
  split; [|split; [|repeat split]].
  - intros path h f. unfold mux_Handler. cbn [find fst].
    repeat match goal with
           | |- context [String.eqb ?a path] =>
             destruct (String.eqb_spec a path); [subst path|]
           end; cbn [fmap option_fmap option_map snd];
      intros H; inversion H; subst;
      split; split; intros H'; try reflexivity; try discriminate;
      congruence.
  - intros path h. unfold mux_Handler. cbn [find fst].
    repeat match goal with
           | |- context [String.eqb ?a path] =>
             destruct (String.eqb_spec a path); [subst path|]
           end; cbn [fmap option_fmap option_map snd];
      rewrite !elem_of_cons, elem_of_nil;
      split; intros H; try discriminate;
      try (inversion H; subst; tauto);
      try (destruct H as [H|[H|[H|[H|[]]]]]; inversion H; subst;
           solve [reflexivity | congruence]).
Qed.


(** * Further properties of the adapters and route handlers *)

Section AdapterEdgeProperties.

Variable ParseForm : Request -> option error.
Variable URL_Query : Request -> gmap string (list string).
Variable Write_answer : World -> string -> option error.
Variable json_Marshal_suggestData : list suggestData -> string * option error.

(** X13. The simple adapter answers every request exactly once, with
    status 200 or 400 and never another: one header and one body are
    written, either in the trace the request came in with (when the form
    does not parse) or in the trace the handler left; a body under 400 is
    [unexpected error ] followed by the text of an error, and a failed
    write is logged and not repeated. *)
Theorem handleResourceReq_one_response (handleFunc : handleFn)
    (logger : Logger) (req : Request) (w : World) :
  let r := handleResourceReq ParseForm URL_Query Write_answer
             json_Marshal_suggestData handleFunc logger req w in
  exists (w1 : World) (code : Z) (body : string),
    r.2 = written Write_answer code body w1 /\
    (code = http_StatusOK \/ code = http_StatusBadRequest) /\
    (w1 = w \/ w1 = (handleFunc (URL_Query req) w).2) /\
    (ParseForm req <> None -> w1 = w /\ code = http_StatusBadRequest) /\
    (code = http_StatusBadRequest ->
     exists err, body = "unexpected error " +:+ Error err) /\
    (code = http_StatusOK ->
     ParseForm req = None /\
     (handleFunc (URL_Query req) w).1.2 = None /\
     json_Marshal_suggestData (handleFunc (URL_Query req) w).1.1 =
       (body, None)).
Proof.
  intros r. subst r. rewrite handleResourceReq_cases.
  destruct (ParseForm req) as [e|] eqn:Hp.
  { exists w, http_StatusBadRequest, ("unexpected error " +:+ Error e).
    repeat split; try discriminate; eauto. }
  cbv zeta.
  destruct (handleFunc (URL_Query req) w) as [[data [e|]] w1] eqn:Hh; simpl.
  { exists w1, http_StatusBadRequest, ("unexpected error " +:+ Error e).
    repeat split; try discriminate; try contradiction; eauto. }
  destruct (json_Marshal_suggestData data) as [body [e|]] eqn:Hm; simpl.
  { exists w1, http_StatusBadRequest, ("unexpected error " +:+ Error e).
    repeat split; try discriminate; try contradiction; eauto. }
  exists w1, http_StatusOK, body.
  repeat split; try discriminate; try contradiction; eauto.
Qed.

End AdapterEdgeProperties.

Section HandlerEdgeProperties.

Variable ErrAccessDeniedException : error.
Variable NewAccountsService : option OAMClient -> AccountsProvider.
Variable GetDimensionValuesRequest :
  gmap string (list string) -> DimensionValuesRequest * option error.
Variable newListMetricsService :
  RequestContextFactoryFunc -> string -> M (result ListMetricsProvider).
Variable json_Marshal_accounts : list Account -> string * option error.
Variable json_Marshal_values : list string -> string * option error.
Variable json_quote : string -> string.
Variable ErrMissingRegion : error.
Variable im_Get : World -> PluginContext -> result DataSource.

(** X14. The accounts handler answers 200, 400, 403 or 500 and nothing
    else; 200 exactly when it returns no error, 400 exactly when the
    region parameter is missing or empty, and an error never comes with a
    payload. *)
Theorem AccountsHandler_statuses (reqCtxFactory : RequestContextFactoryFunc)
    (parameters : gmap string (list string)) (w : World) :
  let r := AccountsHandler ErrAccessDeniedException NewAccountsService
             json_Marshal_accounts reqCtxFactory parameters w in
  let status := (middlewareResponse r.1).1 in
  (status = http_StatusOK \/ status = http_StatusBadRequest \/
   status = http_StatusForbidden \/ status = http_StatusInternalServerError) /\
  (status = http_StatusOK <-> r.1.2 = None) /\
  (status = http_StatusBadRequest <-> url_Get parameters "region" = "") /\
  (forall e, r.1.2 = Some e -> r.1.1 = "").
Proof.
  intros r status. subst status r.
  destruct (String.eqb_spec (url_Get parameters "region") "") as [He|Hne].
  - rewrite AccountsHandler_no_region by assumption. simpl.
    repeat split; try discriminate; auto.
  - rewrite AccountsHandler_region by assumption. cbv zeta.
    destruct (reqCtxFactory _ w) as [[ctx [e|]] w1]; simpl.
    { repeat split; try discriminate; auto; intros H; contradiction. }
    destruct (GetAccountsForCurrentUserOrRole_answer _ w1)
      as [accounts [e|]]; simpl.
    { destruct (errors_Is e ErrAccessDeniedException); simpl;
        repeat split; try discriminate; auto; intros H; contradiction. }
    destruct (json_Marshal_accounts accounts) as [body [e|]]; simpl;
      repeat split; try discriminate; auto; intros H; contradiction.
Qed.

(** X15. The dimension values handler answers 200, 400 or 500, never
    403; 400 exactly when the request does not parse, in which case
    nothing was called; and an error never comes with a payload. *)
Theorem DimensionValuesHandler_statuses
    (reqCtxFactory : RequestContextFactoryFunc)
    (parameters : gmap string (list string)) (w : World) :
  let r := DimensionValuesHandler GetDimensionValuesRequest
             newListMetricsService json_Marshal_values reqCtxFactory
             parameters w in
  let status := (middlewareResponse r.1).1 in
  (status = http_StatusOK \/ status = http_StatusBadRequest \/
   status = http_StatusInternalServerError) /\
  status <> http_StatusForbidden /\
  (status = http_StatusOK <-> r.1.2 = None) /\
  (status = http_StatusBadRequest <->
   (GetDimensionValuesRequest parameters).2 <> None) /\
  (status = http_StatusBadRequest -> r.2 = w) /\
  (forall e, r.1.2 = Some e -> r.1.1 = "").
Proof.
  intros r status. subst status r. rewrite DimensionValuesHandler_cases.
  cbv zeta.
  destruct (GetDimensionValuesRequest parameters) as [p [e|]]; simpl.
  { repeat split; try discriminate; auto. }
  destruct (newListMetricsService _ _ w) as [[e|service] w1]; simpl.
  { repeat split; try discriminate; auto; intros H; contradiction. }
  destruct (GetDimensionValuesByDimensionFilter_answer service w1 p)
    as [values [e|]]; simpl.
  { repeat split; try discriminate; auto; intros H; contradiction. }
  destruct (json_Marshal_values values) as [body [e|]]; simpl;
    repeat split; try discriminate; auto; intros H; contradiction.
Qed.

(** X16. The external-id handler calls the factory for the empty region
    and nothing else, and does not look at the query parameters; it
    answers 500 with the factory's error as cause exactly when the factory
    fails, and 200 otherwise. *)
Theorem ExternalIdHandler_statuses (reqCtxBeforeAuth : RequestContextFactoryFunc)
    (parameters : gmap string (list string)) (w : World) :
  let c := reqCtxBeforeAuth "" w in
  let r := ExternalIdHandler json_quote reqCtxBeforeAuth parameters w in
  let status := (middlewareResponse r.1).1 in
  r.2 = c.2 /\
  (status = http_StatusOK \/ status = http_StatusInternalServerError) /\
  (status = http_StatusOK <-> c.1.2 = None) /\
  (forall err, c.1.2 = Some err ->
     r.1 = ("", Some (NewHttpError "error in ExternalIdHandler"
                        http_StatusInternalServerError err))) /\
  (forall parameters' : gmap string (list string),
     ExternalIdHandler json_quote reqCtxBeforeAuth parameters' w = r).
Proof.
  intros c r status. subst status r c. rewrite ExternalIdHandler_cases.
  cbv zeta.
  destruct (reqCtxBeforeAuth "" w) as [[ctx [e|]] w1] eqn:Hc; simpl.
  - repeat split; try discriminate; auto.
    + intros err H. inversion H; reflexivity.
    + intros parameters'. rewrite ExternalIdHandler_cases, Hc. reflexivity.
  - repeat split; try discriminate; auto.
    intros parameters'. rewrite ExternalIdHandler_cases, Hc. reflexivity.
Qed.

(** X17. The accounts route as the mux serves it, on the full factory of
    the data source.  For a region parameter and an instance: when the
    configuration of the home region or of the requested region does not
    resolve, the answer is 500 with that error and the accounts service is
    not asked; when both resolve, the accounts service is built on the
    account-discovery client of the configuration resolved for the
    requested region and asked once, access denied giving 403, any other
    error 500, and a list that marshals 200 with its encoding. *)
Theorem AccountsHandler_on_getRequestContext (ds instance : DataSource)
    (pluginCtx : PluginContext) (parameters : gmap string (list string))
    (w : World) :
  url_Get parameters "region" <> "" ->
  im_Get w pluginCtx = Built instance ->
  let region := url_Get parameters "region" in
  let d := newAWSConfig ErrMissingRegion instance defaultRegion
             (w ++ [EvInstanceGet pluginCtx]) in
  let t := newAWSConfig ErrMissingRegion instance
             (effectiveRegion instance region) d.2 in
  let r := AccountsHandler ErrAccessDeniedException NewAccountsService
             json_Marshal_accounts
             (getRequestContext ErrMissingRegion im_Get ds pluginCtx)
             parameters w in
  (forall err, d.1.2 = Some err ->
     r = (("", Some (NewHttpError "error in AccountsHandler"
                       http_StatusInternalServerError err)), d.2)) /\
  (d.1.2 = None -> forall err, t.1.2 = Some err ->
     r = (("", Some (NewHttpError "error in AccountsHandler"
                       http_StatusInternalServerError err)), t.2)) /\
  (d.1.2 = None -> t.1.2 = None ->
     let a := GetAccountsForCurrentUserOrRole_answer
                (NewAccountsService (Some (NewOAMAPI t.1.1))) t.2 in
     r.2 = t.2 ++ [EvProvider "GetAccountsForCurrentUserOrRole" ""] /\
     (forall err, a.2 = Some err ->
        (middlewareResponse r.1).1 =
        if errors_Is err ErrAccessDeniedException
        then http_StatusForbidden else http_StatusInternalServerError) /\
     (a.2 = None -> forall body, json_Marshal_accounts a.1 = (body, None) ->
        middlewareResponse r.1 = (http_StatusOK, RawPayload body))).
Proof.
  intros Hne Him region d t r. subst r.
  rewrite AccountsHandler_region by assumption. cbv zeta. fold region.
  rewrite (getRequestContext_cases _ _ ds instance) by assumption.
  cbv zeta. fold d. fold t.
  destruct d.1.2 as [e|] eqn:Hd; simpl.
  { split; [|split; intros; discriminate].
    intros err H. inversion H; reflexivity. }
  destruct t.1.2 as [e|] eqn:Ht; simpl.
  { split; [intros; discriminate|]. split; [|intros; discriminate].
    intros _ err H. inversion H; reflexivity. }
  split; [intros; discriminate|]. split; [intros _ err; discriminate|].
  intros _ _.
  destruct (GetAccountsForCurrentUserOrRole_answer _ t.2)
    as [accounts [e|]]; simpl.
  - split; [reflexivity|]. split; [|discriminate].
    intros err H. inversion H; subst.
    destruct (errors_Is err ErrAccessDeniedException); reflexivity.
  - split; [destruct (json_Marshal_accounts accounts).2; reflexivity|].
    split; [intros err; discriminate|].
    intros _ body Hm. rewrite Hm. reflexivity.
Qed.

(** X18. The handlers that take the plugin context do what the handlers
    without it do on the factory that was given the plugin context.  On
    the settings-only builder of the data source, as the mux serves the
    external-id route, the handler looks the instance up for its plugin
    context, resolves no configuration, and answers 200 with the external
    id of the instance or 500 with the error of the instance manager. *)
Theorem WithPluginContext_handlers (pluginCtx : PluginContext)
    (reqCtxFactory : WithPluginContext.RequestContextFactoryFunc)
    (parameters : gmap string (list string)) (ds : DataSource) (w : World) :
  WithPluginContext.ExternalIdHandler json_quote pluginCtx reqCtxFactory
    parameters w =
  ExternalIdHandler json_quote (reqCtxFactory pluginCtx) parameters w /\
  WithPluginContext.DimensionValuesHandler GetDimensionValuesRequest
    (fun pluginCtx f => newListMetricsService (f pluginCtx))
    json_Marshal_values pluginCtx reqCtxFactory parameters w =
  DimensionValuesHandler GetDimensionValuesRequest newListMetricsService
    json_Marshal_values (reqCtxFactory pluginCtx) parameters w /\
  let h := WithPluginContext.ExternalIdHandler json_quote pluginCtx
             (getRequestContextOnlySettings im_Get ds) parameters w in
  h.2 = w ++ [EvInstanceGet pluginCtx] /\
  resolvedRegions h.2 = resolvedRegions w /\
  middlewareResponse h.1 =
  match im_Get w pluginCtx with
  | Failed err =>
    (http_StatusInternalServerError,
     ErrorPayload (NewHttpError "error in ExternalIdHandler"
                     http_StatusInternalServerError err))
  | Built instance =>
    (http_StatusOK,
     RawPayload ("{" +:+ DQ +:+ "externalId" +:+ DQ +:+ ":" +:+
                 json_quote (gs_ExternalID
                               (st_GrafanaSettings (ds_Settings instance)))
                 +:+ "}"))
  end.
Proof.
  split; [reflexivity|]. split; [reflexivity|].
  change (WithPluginContext.ExternalIdHandler json_quote pluginCtx
            (getRequestContextOnlySettings im_Get ds) parameters w)
    with (ExternalIdHandler json_quote
            (getRequestContextOnlySettings im_Get ds pluginCtx) parameters w).
  rewrite ExternalIdHandler_cases, getRequestContextOnlySettings_cases.
  cbv zeta.
  destruct (im_Get w pluginCtx) as [e|instance]; simpl;
    (split; [reflexivity|]); (split; [|reflexivity]);
    rewrite resolvedRegions_app; simpl; apply app_nil_r.
Qed.

End HandlerEdgeProperties.

(** * The further properties at work on the example instance *)

(** An instance without home region still resolves eu-west-1. *)
Lemma newAWSConfig_explicit_region_witness :
  resolvedRegions
    (newAWSConfig Fixture.ErrMissingRegion (Fixture.ds "" "none")
       "eu-west-1" []).2 = ["eu-west-1"].
Proof.
  assert (Hne : "eu-west-1" <> defaultRegion) by discriminate.
  destruct (newAWSConfig_explicit_region Fixture.ErrMissingRegion
              (Fixture.ds "" "none") "eu-west-1" [] Hne) as [_ H].
  exact H.
Defined.

(** With the proxy enabled on both sides its options reach the provider. *)
Lemma newAWSConfig_auth_settings_witness :
  au_ProxyOptions (authSettingsFor Fixture.proxied "eu-west-1") =
  Some {| po_Enabled := true; po_Address := "proxy:1080" |}.
Proof.
  assert (Hin : In (EvGetConfig (authSettingsFor Fixture.proxied "eu-west-1"))
                  (drop (length (@nil Event))
                     (newAWSConfig Fixture.ErrMissingRegion Fixture.proxied
                        "eu-west-1" []).2))
    by (left; reflexivity).
  destruct (newAWSConfig_auth_settings Fixture.ErrMissingRegion
              Fixture.proxied "eu-west-1" [] _ Hin) as [H _].
  exact H.
Defined.

Lemma getRequestContext_ec2_is_getEC2Client_witness :
  exists client : EC2Client,
    (getEC2Client Fixture.ErrMissingRegion (Fixture.im "us-east-1" "none")
       (Fixture.ds "us-east-1" "none") Fixture.pluginCtx defaultRegion []).1 =
    Built client /\
    cfg_Region (ec2_cfg client) = "us-east-1".
Proof.
  destruct (getRequestContext_ec2_is_getEC2Client Fixture.ErrMissingRegion
              (Fixture.im "us-east-1" "none") (Fixture.ds "us-east-1" "none")
              Fixture.pluginCtx "eu-west-1" [] _ _ eq_refl)
    as (client & Hc & He).
  exists client. split; [exact Hc|].
  inversion He. reflexivity.
Defined.

Lemma getRequestContext_region_independent_witness :
  let build region :=
    (getRequestContext Fixture.ErrMissingRegion (Fixture.im "us-east-1" "none")
       (Fixture.ds "us-east-1" "none") Fixture.pluginCtx region []).1.1 in
  EC2APIProvider (build "eu-west-1") = EC2APIProvider (build "ap-south-1") /\
  OAMAPIProvider (build "eu-west-1") <> OAMAPIProvider (build "ap-south-1").
Proof.
  intros build. split.
  - apply (getRequestContext_region_independent Fixture.ErrMissingRegion
             (Fixture.im "us-east-1" "none") (Fixture.ds "us-east-1" "none")
             Fixture.pluginCtx "eu-west-1" "ap-south-1" [] _ _ _ _
             eq_refl eq_refl).
  - discriminate.
Defined.

Lemma CheckHealth_without_home_region_witness :
  let r := CheckHealth Fixture.ErrMissingRegion (Fixture.im "" "none")
             Fixture.listsMetrics Fixture.describesLogGroups
             (Fixture.ds "" "none")
             {| hr_PluginContext := Fixture.pluginCtx |} [] in
  Status r.1.1 = HealthStatusError /\
  r.2 = [EvInstanceGet Fixture.pluginCtx; EvInstanceGet Fixture.pluginCtx].
Proof.
  intros r. subst r.
  rewrite (CheckHealth_without_home_region Fixture.ErrMissingRegion
             (Fixture.im "" "none") Fixture.listsMetrics
             Fixture.describesLogGroups (Fixture.ds "" "none")
             {| hr_PluginContext := Fixture.pluginCtx |} []
             (Fixture.ds "" "none") (Fixture.ds "" "none")
             eq_refl eq_refl eq_refl eq_refl).
  split; reflexivity.
Defined.

(** The accounts of eu-west-1, denied: 403, after the home region and
    eu-west-1 were resolved in this order. *)
Lemma AccountsHandler_on_getRequestContext_witness :
  let r := AccountsHandler Fixture.ErrAccessDeniedException
             Fixture.deniedService Fixture.marshalAccounts Fixture.factory
             {[ "region" := ["eu-west-1"] ]} [] in
  (middlewareResponse r.1).1 = http_StatusForbidden /\
  resolvedRegions r.2 = ["us-east-1"; "eu-west-1"].
Proof.
  intros r.
  assert (Hne : url_Get ({[ "region" := ["eu-west-1"] ]}
                         : gmap string (list string)) "region" <> "")
    by (vm_compute; discriminate).
  destruct (AccountsHandler_on_getRequestContext
              Fixture.ErrAccessDeniedException Fixture.deniedService
              Fixture.marshalAccounts Fixture.ErrMissingRegion
              (Fixture.im "us-east-1" "none") (Fixture.ds "us-east-1" "none")
              (Fixture.ds "us-east-1" "none") Fixture.pluginCtx
              {[ "region" := ["eu-west-1"] ]} [] Hne eq_refl)
    as (_ & _ & H).
  destruct (H eq_refl eq_refl) as (Hw & Hd & _).
  split.
  - apply (Hd (fmt_Errorf_w "access denied: not authorized to list links"
                 Fixture.ErrAccessDeniedException)). reflexivity.
  - subst r. unfold Fixture.factory. rewrite Hw. vm_compute. reflexivity.
Defined.
